(** * Campaign-briefing checker: description extraction, fuzzy matching and
    few-shot prompt assembly of [check_json.py], as a shallow embedding.

  Python values are modelled as follows.
  - [str] is [string]; every [ascii] stands for one code point below 256.
  - [int] is [Z]; [float] is the binary64 [PrimFloat.float], so [2.0 * m / n]
    and [>=] are the IEEE operations Python performs.
  - a [dict] is the list of its items in insertion order (keys distinct);
    a [set] of tuples is a [gset].
  - [difflib.SequenceMatcher] follows CPython's [Lib/difflib.py]. *)

From Stdlib Require Import ZArith Strings.String Strings.Ascii Floats Lia.
From stdpp Require Import base option list sorting gmap sets strings pretty.

Local Open Scope Z_scope.

(** ** Python exceptions and results *)

Module Py.

(** The exception classes the program can meet; all derive from
    [Exception].  [ClientError] is botocore's. *)
Inductive Exception : Type :=
| KeyError (key_repr : string)
| IndexError (msg : string)
| TypeError (msg : string)
| AttributeError (msg : string)
| ValueError (msg : string)
| OSError (msg : string)
| ClientError (msg : string).

(** [repr(s)] of a string without quotes, backslashes or control
    characters, which is all the program ever shows this way. *)
Definition repr (s : string) : string := "'" +:+ s +:+ "'".

(** [str(e)]; a [KeyError] shows the [repr] of its key. *)
Definition exc_str (e : Exception) : string :=
  match e with
  | KeyError key_repr => key_repr
  | IndexError msg | TypeError msg | AttributeError msg
  | ValueError msg | OSError msg | ClientError msg => msg
  end.

(** An expression either yields a value or raises. *)
Inductive Result (A : Type) : Type :=
| Ok (a : A)
| Raise (e : Exception).
Arguments Ok {A} a.
Arguments Raise {A} e.

Definition bind {A B} (r : Result A) (k : A -> Result B) : Result B :=
  match r with
  | Ok a => k a
  | Raise e => Raise e
  end.

(** [l[i]] for a list and [i >= 0]. *)
Definition list_index {A} (l : list A) (i : nat) : Result A :=
  match l !! i with
  | Some x => Ok x
  | None => Raise (IndexError "list index out of range")
  end.

(** The values a spreadsheet cell can hold here: text, a whole number, a
    boolean, or the NaN that pandas puts in an empty cell. *)
Inductive Value : Type :=
| VStr (s : string)
| VInt (n : Z)
| VBool (b : bool)
| VNaN.

(** [str(v)] *)
Definition str (v : Value) : string :=
  match v with
  | VStr s => s
  | VInt n => pretty n
  | VBool true => "True"
  | VBool false => "False"
  | VNaN => "nan"
  end.

(** [isinstance(v, str)] *)
Definition isinstance_str (v : Value) : bool :=
  match v with
  | VStr _ => true
  | _ => false
  end.

(** ASCII double quote. *)
Definition dquote : string := String "034"%char EmptyString.

End Py.

Notation "x <-? r ; k" := (Py.bind r (fun x => k))
(at level 100, r at next level, right associativity, only parsing).

(** ** Python [str] primitives *)

Module PyStr.

Definition chars (s : string) : list ascii := list_ascii_of_string s.
Definition of_chars (l : list ascii) : string := string_of_list_ascii l.

(** [len(s)] *)
Definition len (s : string) : Z := Z.of_nat (String.length s).

(** [s.startswith(sub)] on character lists. *)
Fixpoint starts_with (sub s : list ascii) : bool :=
  match sub, s with
  | [], _ => true
  | _ :: _, [] => false
  | c :: sub', d :: s' => Ascii.eqb c d && starts_with sub' s'
  end.

(** Lowest index [>= i] (counted from [i] at the head of [s]) where [sub]
    occurs, or [-1]. *)
Fixpoint find_chars (sub s : list ascii) (i : Z) : Z :=
  if starts_with sub s then i
  else match s with
       | [] => -1
       | _ :: s' => find_chars sub s' (i + 1)
       end.

(** Python clamps a slice bound: a negative bound counts from the end, and
    the result is cut to [0, len]. *)
Definition clamp (n : Z) (i : Z) : Z :=
  let i' := if i <? 0 then i + n else i in
  Z.max 0 (Z.min n i').

(** [s[i:j]] *)
Definition slice (s : string) (i j : Z) : string :=
  let n := len s in
  let lo := clamp n i in
  let hi := clamp n j in
  of_chars (take (Z.to_nat (hi - lo)) (drop (Z.to_nat lo) (chars s))).

(** The characters of [s] at the positions [lo <= k < hi], for [0 <= lo]:
    the plain substring, with no counting from the end, and empty when
    [hi <= lo]. *)
Definition between (s : string) (lo hi : Z) : string :=
  of_chars (take (Z.to_nat (hi - lo)) (drop (Z.to_nat lo) (chars s))).

(** [s[i:]] *)
Definition slice_from (s : string) (i : Z) : string :=
  let n := len s in
  let lo := clamp n i in
  of_chars (drop (Z.to_nat lo) (chars s)).

(** [s.find(sub, start)]: [start] is clamped like a slice bound, and a
    start beyond the end finds nothing. *)
Definition find_from (s sub : string) (start : Z) : Z :=
  let n := len s in
  if n <? start then -1
  else let lo := clamp n start in
       find_chars (chars sub) (drop (Z.to_nat lo) (chars s)) lo.

(** [s.find(sub)] *)
Definition find (s sub : string) : Z := find_from s sub 0.

(** [c.isspace()] for a code point below 256. *)
Definition isspace (c : ascii) : bool :=
  let n := nat_of_ascii c in
  ((9 <=? n) && (n <=? 13) || (28 <=? n) && (n <=? 32)
   || (n =? 133) || (n =? 160))%nat.

Fixpoint lstrip_by (p : ascii -> bool) (l : list ascii) : list ascii :=
  match l with
  | c :: l' => if p c then lstrip_by p l' else l
  | [] => []
  end.

Definition rstrip_by (p : ascii -> bool) (l : list ascii) : list ascii :=
  reverse (lstrip_by p (reverse l)).

Definition strip_by (p : ascii -> bool) (l : list ascii) : list ascii :=
  rstrip_by p (lstrip_by p l).

(** [s.strip()], [s.rstrip()] *)
Definition strip (s : string) : string := of_chars (strip_by isspace (chars s)).
Definition rstrip (s : string) : string := of_chars (rstrip_by isspace (chars s)).

(** [s.strip(cs)] *)
Definition strip_chars (s cs : string) : string :=
  let p c := existsb (Ascii.eqb c) (chars cs) in
  of_chars (strip_by p (chars s)).

(** [s.replace(old, new)] for a non-empty [old]: occurrences are replaced
    from the left and do not overlap; [skip] counts the characters of the
    occurrence just replaced that are still to be passed over. *)
Fixpoint replace_chars (old new s : list ascii) (skip : nat) : list ascii :=
  match s with
  | [] => []
  | c :: s' =>
      match skip with
      | S k => replace_chars old new s' k
      | O =>
          if starts_with old s
          then new ++ replace_chars old new s' (length old - 1)
          else c :: replace_chars old new s' O
      end
  end.

(** [s.replace(old, new)]; with an empty [old] Python puts [new] before
    every character and at the end. *)
Definition replace (s old new : string) : string :=
  let l := chars s in
  match chars old with
  | [] => of_chars (chars new ++ flat_map (fun c => c :: chars new) l)
  | o => of_chars (replace_chars o (chars new) l O)
  end.

(** [template.format] with keyword arguments [kwargs], for templates
    whose replacement fields are plain keyword names, as every template of
    [prompts.py] is: [{{] and [}}] are literal braces, [{name}] is
    replaced by [kwargs[name]].
    [field] is the name read so far inside an open field.  A field with
    a conversion, a format specification or an attribute or index is
    reported as a [ValueError] here. *)
Fixpoint format_chars (t : list ascii) (field : option (list ascii))
    (kwargs : list (string * string)) : Py.Result (list ascii) :=
  match t, field with
  | [], None => Py.Ok []
  | [], Some _ => Py.Raise (Py.ValueError "expected '}' before end of string")
  | c :: t', None =>
      if Ascii.eqb c "{" then
        match t' with
        | [] => Py.Raise (Py.ValueError "Single '{' encountered in format string")
        | d :: t'' =>
            if Ascii.eqb d "{"
            then rest <-? format_chars t'' None kwargs; Py.Ok (c :: rest)
            else format_chars t' (Some []) kwargs
        end
      else if Ascii.eqb c "}" then
        match t' with
        | d :: t'' =>
            if Ascii.eqb d "}"
            then rest <-? format_chars t'' None kwargs; Py.Ok (c :: rest)
            else Py.Raise (Py.ValueError "Single '}' encountered in format string")
        | [] => Py.Raise (Py.ValueError "Single '}' encountered in format string")
        end
      else rest <-? format_chars t' None kwargs; Py.Ok (c :: rest)
  | c :: t', Some name =>
      if Ascii.eqb c "}" then
        match name with
        | [] => Py.Raise (Py.IndexError
                  "Replacement index 0 out of range for positional args tuple")
        | _ =>
            match list_find (fun kv => String.eqb kv.1 (of_chars name)) kwargs with
            | Some (_, (_, v)) =>
                rest <-? format_chars t' None kwargs; Py.Ok (chars v ++ rest)
            | None => Py.Raise (Py.KeyError (Py.repr (of_chars name)))
            end
        end
      else if existsb (Ascii.eqb c) (chars "{.[!:")
      then Py.Raise (Py.ValueError "replacement field outside the model")
      else format_chars t' (Some (name ++ [c])) kwargs
  end.

Definition format (template : string) (kwargs : list (string * string))
  : Py.Result string :=
  r <-? format_chars (chars template) None kwargs; Py.Ok (of_chars r).

(** [s.endswith(suffix)] *)
Definition endswith (s suffix : string) : bool :=
  starts_with (reverse (chars suffix)) (reverse (chars s)).

End PyStr.

(** ** [difflib.SequenceMatcher(None, a, b)] *)

Module Difflib.

(** [float(n)] for a Python [int]: the nearest binary64 value. *)
Definition float_of_int (n : Z) : float :=
  SF2Prim (binary_normalize prec emax n 0 false).

(** [_calculate_ratio(matches, length)] *)
Definition _calculate_ratio (matches length : Z) : float :=
  if negb (length =? 0)
  then (2.0 * float_of_int matches / float_of_int length)%float
  else 1.0%float.

(** The matcher after [__init__]: both sequences, the index [b2j] of [b]
    and the junk set, empty because [isjunk] is [None]. *)
Record SequenceMatcher := {
  sm_a : list ascii;
  sm_b : list ascii;
  b2j : gmap ascii (list Z);
  bjunk : gset ascii
}.

(** The first loop of [__chain_b]:
    [for i, elt in enumerate(b): b2j.setdefault(elt, []).append(i)]. *)
Fixpoint chain_indices (b : list ascii) (i : Z) (m : gmap ascii (list Z))
  : gmap ascii (list Z) :=
  match b with
  | [] => m
  | elt :: b' => chain_indices b' (i + 1) (<[elt := default [] (m !! elt) ++ [i]]> m)
  end.

(** [__chain_b]: with [autojunk] on and [len(b) >= 200], the elements that
    occur more than [len(b) // 100 + 1] times are dropped from [b2j]. *)
Definition chain_b (b : list ascii) : gmap ascii (list Z) :=
  let b2j := chain_indices b 0 ∅ in
  let n := Z.of_nat (length b) in
  if 200 <=? n
  then let ntest := n / 100 + 1 in
       filter (fun p : ascii * list Z => ¬ (ntest < Z.of_nat (length p.2))) b2j
  else b2j.

Definition new (a b : string) : SequenceMatcher :=
  {| sm_a := PyStr.chars a; sm_b := PyStr.chars b;
     b2j := chain_b (PyStr.chars b); bjunk := ∅ |}.

Definition Match : Type := Z * Z * Z.

Section find_longest_match.
Variable sm : SequenceMatcher.
Variables alo ahi blo bhi : Z.

Definition isbjunk (c : ascii) : bool := bool_decide (c ∈ bjunk sm).

(** [a[i] == b[j]] together with the junk test on [b[j]]; both indices
    are inside the sequences wherever the loops below evaluate it. *)
Definition same_at (want_junk : bool) (i j : Z) : bool :=
  match sm_a sm !! Z.to_nat i, sm_b sm !! Z.to_nat j with
  | Some x, Some y => Bool.eqb (isbjunk y) want_junk && Ascii.eqb x y
  | _, _ => false
  end.

(** The loop [for j in b2j.get(a[i], nothing)] with its [continue] and
    [break]; the state is [newj2len] and the best block so far. *)
Fixpoint scan_row (js : list Z) (i : Z) (j2len newj2len : gmap Z Z)
    (best : Match) : gmap Z Z * Match :=
  match js with
  | [] => (newj2len, best)
  | j :: js' =>
      if j <? blo then scan_row js' i j2len newj2len best
      else if bhi <=? j then (newj2len, best)
      else
        let k := default 0 (j2len !! (j - 1)) + 1 in
        let newj2len' := <[j := k]> newj2len in
        let '(_, _, bestsize) := best in
        let best' := if bestsize <? k then (i - k + 1, j - k + 1, k) else best in
        scan_row js' i j2len newj2len' best'
  end.

(** The loop [for i in range(alo, ahi)]. *)
Fixpoint scan_rows (rows : list Z) (j2len : gmap Z Z) (best : Match) : Match :=
  match rows with
  | [] => best
  | i :: rows' =>
      let js := match sm_a sm !! Z.to_nat i with
                | Some c => default [] (b2j sm !! c)
                | None => []
                end in
      let '(newj2len, best') := scan_row js i j2len ∅ best in
      scan_rows rows' newj2len best'
  end.

(** [while besti > alo and bestj > blo and ... a[besti-1] == b[bestj-1]].
    The counter only makes the recursion structural: started at
    [besti - alo] it reaches [0] exactly when [besti > alo] fails. *)
Fixpoint extend_left (n : nat) (want_junk : bool) (best : Match) : Match :=
  let '(besti, bestj, bestsize) := best in
  match n with
  | O => best
  | S n' =>
      if (alo <? besti) && (blo <? bestj) && same_at want_junk (besti - 1) (bestj - 1)
      then extend_left n' want_junk (besti - 1, bestj - 1, bestsize + 1)
      else best
  end.

(** [while besti+bestsize < ahi and bestj+bestsize < bhi and ...]; the
    counter starts at [ahi - (besti + bestsize)]. *)
Fixpoint extend_right (n : nat) (want_junk : bool) (best : Match) : Match :=
  let '(besti, bestj, bestsize) := best in
  match n with
  | O => best
  | S n' =>
      if (besti + bestsize <? ahi) && (bestj + bestsize <? bhi)
         && same_at want_junk (besti + bestsize) (bestj + bestsize)
      then extend_right n' want_junk (besti, bestj, bestsize + 1)
      else best
  end.

Definition left_room (best : Match) : nat := Z.to_nat (best.1.1 - alo).
Definition right_room (best : Match) : nat :=
  Z.to_nat (ahi - (best.1.1 + best.2)).

Definition find_longest_match : Match :=
  let best0 := scan_rows (seqZ alo (ahi - alo)) ∅ (alo, blo, 0) in
  let best1 := extend_left (left_room best0) false best0 in
  let best2 := extend_right (right_room best1) false best1 in
  let best3 := extend_left (left_room best2) true best2 in
  extend_right (right_room best3) true best3.

End find_longest_match.

(** The [while queue] loop of [get_matching_blocks].  The queue is kept
    with its top (the end of the Python list) first.  [None] only when the
    fuel runs out before the queue is empty. *)
Fixpoint blocks_loop (sm : SequenceMatcher) (fuel : nat)
    (queue : list (Z * Z * Z * Z)) (matching_blocks : list Match)
  : option (list Match) :=
  match queue with
  | [] => Some matching_blocks
  | (alo, ahi, blo, bhi) :: queue' =>
      match fuel with
      | O => None
      | S fuel' =>
          let '(i, j, k) := find_longest_match sm alo ahi blo bhi in
          if negb (k =? 0)
          then
            let q1 := if (alo <? i) && (blo <? j)
                      then (alo, i, blo, j) :: queue' else queue' in
            let q2 := if (i + k <? ahi) && (j + k <? bhi)
                      then (i + k, ahi, j + k, bhi) :: q1 else q1 in
            blocks_loop sm fuel' q2 (matching_blocks ++ [(i, j, k)])
          else blocks_loop sm fuel' queue' matching_blocks
      end
  end.

(** Tuple order, as [list.sort] compares the blocks. *)
Definition match_le (x y : Match) : Prop :=
  let '(i1, j1, k1) := x in
  let '(i2, j2, k2) := y in
  i1 < i2 ∨ (i1 = i2 ∧ (j1 < j2 ∨ (j1 = j2 ∧ k1 <= k2))).

#[global] Instance match_le_dec : RelDecision match_le.
Proof. intros [[i1 j1] k1] [[i2 j2] k2]; unfold match_le; apply _. Defined.

(** The loop that merges adjacent blocks; the state is
    [(i1, j1, k1)] and [non_adjacent]. *)
Fixpoint collapse (blocks : list Match) (cur : Match) (non_adjacent : list Match)
  : Match * list Match :=
  match blocks with
  | [] => (cur, non_adjacent)
  | (i2, j2, k2) :: blocks' =>
      let '(i1, j1, k1) := cur in
      if (i1 + k1 =? i2) && (j1 + k1 =? j2)
      then collapse blocks' (i1, j1, k1 + k2) non_adjacent
      else
        let non_adjacent' :=
          if negb (k1 =? 0) then non_adjacent ++ [cur] else non_adjacent in
        collapse blocks' (i2, j2, k2) non_adjacent'
  end.

(** Every block costs at least one element of [a] and queues at most two
    ranges, so [2 * len(a) + 1] iterations empty the queue. *)
Definition blocks_fuel (sm : SequenceMatcher) : nat :=
  2 * length (sm_a sm) + 1.

Definition get_matching_blocks (sm : SequenceMatcher) : option (list Match) :=
  let la := Z.of_nat (length (sm_a sm)) in
  let lb := Z.of_nat (length (sm_b sm)) in
  match blocks_loop sm (blocks_fuel sm) [(0, la, 0, lb)] [] with
  | None => None
  | Some matching_blocks =>
      let sorted := merge_sort match_le matching_blocks in
      let '((i1, j1, k1), non_adjacent) := collapse sorted (0, 0, 0) [] in
      let non_adjacent' :=
        if negb (k1 =? 0) then non_adjacent ++ [(i1, j1, k1)] else non_adjacent in
      Some (non_adjacent' ++ [(la, lb, 0)])
  end.

(** [sum(triple[-1] for triple in blocks)] *)
Definition sum_sizes (blocks : list Match) : Z :=
  foldr (fun t acc => t.2 + acc) 0 blocks.

(** [SequenceMatcher.ratio]; the [None] branch is never taken, see
    [get_matching_blocks_returns]. *)
Definition ratio (sm : SequenceMatcher) : float :=
  match get_matching_blocks sm with
  | Some blocks =>
      _calculate_ratio (sum_sizes blocks)
        (Z.of_nat (length (sm_a sm)) + Z.of_nat (length (sm_b sm)))
  | None => nan
  end.

(** The number of matched elements that [ratio] sums up. *)
Definition matched (sm : SequenceMatcher) : Z :=
  match get_matching_blocks sm with
  | Some blocks => sum_sizes blocks
  | None => 0
  end.

(** *** Quantities for the proof that the loop of
    [get_matching_blocks] ends *)

(** A block that lies inside the rows [alo .. hi) of [a]. *)
Definition in_rows (alo hi : Z) (best : Match) : Prop :=
  alo <= best.1.1 ∧ best.1.1 + best.2 <= hi ∧ 0 <= best.2.

(** Every run length stored for a row is at least 1 and at most [bound]. *)
Definition runs_upto (bound : Z) (j2len : gmap Z Z) : Prop :=
  map_Forall (fun _ v => 1 <= v <= bound) j2len.

(** What a queued range still costs: two iterations per row, plus one. *)
Definition range_cost (r : Z * Z * Z * Z) : nat :=
  2 * Z.to_nat (r.1.1.2 - r.1.1.1) + 1.

Definition queue_cost (queue : list (Z * Z * Z * Z)) : nat :=
  foldr (fun r acc => range_cost r + acc)%nat 0%nat queue.

Definition range_ok (r : Z * Z * Z * Z) : Prop := r.1.1.1 <= r.1.1.2.

End Difflib.

(** ** The part of pandas the program uses *)

Module Pandas.

(** A frame is its columns, each a label with the cells of its rows. *)
Definition DataFrame : Type := list (string * list Py.Value).

(** [df[label]] *)
Definition getitem (df : DataFrame) (label : string) : Py.Result (list Py.Value) :=
  match list_find (fun c => String.eqb c.1 label) df with
  | Some (_, (_, cells)) => Py.Ok cells
  | None => Py.Raise (Py.KeyError (Py.repr label))
  end.

(** [series.iloc[i]] for [i >= 0] *)
Definition iloc (cells : list Py.Value) (i : nat) : Py.Result Py.Value :=
  match cells !! i with
  | Some v => Py.Ok v
  | None => Py.Raise (Py.IndexError "single positional indexer is out-of-bounds")
  end.

End Pandas.

(** ** [prompts.py]: the prompt texts, byte for byte (UTF-8) *)

Module Prompts.

Definition rules : string :=
"
You are a *QA auditor* in charge of validating that two JSON documents   
representing the same marketing campaign are **semantically identical**.   
The 🟢 *reference JSON* comes from Adobe Campaign and is assumed to be
correct; the 🟠 *briefing JSON* was generated from an Excel sheet.  Your
job is to return a **bullet‑list of discrepancies** or the literal token
`NO_DIFF` when both documents match.

🔍 **Check the following elements (and nothing else):**
1. **commercial_activity.start_date** and **commercial_activity.end_date**   
   – must exist and be ISO formatted (`YYYY-MM-DD`).
2. **description** – plain‑text description of the action.  Ignore case and
   extra whitespace when comparing.
3. **success_criteria / metrics** – treat as an *unordered* list. Each
   entry must match on *metric_name*, *function*, *min_amount* (numeric),
   and *time_window*.
4. **customer_segmentation** – must be either `null` or a well‑formed
   object detailing the segment logic.  The two JSONs must agree.

⚙️ **Output format:**
- If there is **no difference**, respond with the single token `NO_DIFF`.
- Otherwise, one bullet per issue.  Use JSON‑path notation to locate the
  field, then a short description of the problem, e.g.:
  - 🔴 `commercial_activity.start_date`: expected `2025-08-01`, got `2025-07-30`
  - 🟠 `success_criteria[1].min_amount`: expected `500`, got `200`
- Use the icons **🔴** for blocking errors (dates, missing keys), **🟠** for
  warnings (description mismatch, additional keys).
- Keep the entire answer **under 1200 tokens**.
".

Definition first_example : string :=
"
Below is **Example 1**. Compare the reference JSON to the briefing JSON
and answer following the *RULES*.

----------------  🟢  REFERENCE JSON  ----------------
{json_1}
----------------  🟠  BRIEFING JSON   ----------------
{brf_1}
".

Definition expected_response_1 : string :=
"NO_DIFF".

Definition second_example : string :=
"
Below is **Example 2**. Compare the reference JSON to the briefing JSON
and answer following the *RULES*.

----------------  🟢  REFERENCE JSON  ----------------
{json_2}
----------------  🟠  BRIEFING JSON   ----------------
{brf_2}
".

Definition expected_response_2 : string :=
"
- 🔴 `commercial_activity.start_date`: expected `2025-04-01`, got `2025-04-03`
- 🟠 `success_criteria[0].min_amount`: expected `300`, got `250`
".

Definition third_example : string :=
"
Below is **Example 3**. Compare the reference JSON to the briefing JSON
and answer following the *RULES*.

----------------  🟢  REFERENCE JSON  ----------------
{json_3}
----------------  🟠  BRIEFING JSON   ----------------
{brf_3}
".

Definition expected_response_3 : string :=
"
- 🟠 `description`: texts differ after normalisation
- 🔴 `customer_segmentation`: expected `null`, got an object defining a
      segment named *Clientes‑Alta* (should be null for an “Abierto”
      campaign)
".

Definition new_request : string :=
"
Please compare the two JSON documents below.  Use the **RULES** and return
`NO_DIFF` or a bullet list of discrepancies.

================  🟠  BRIEFING JSON   =================
{clean_briefing}
================  🟢  REFERENCE JSON  =================
{json}
".

End Prompts.

(** ** [check_json.py] *)

Module CheckJson.

Inductive GptRoles : Type := USER | ASSISTANT | SYSTEM.

#[global] Instance GptRoles_eq_dec : EqDecision GptRoles.
Proof. solve_decision. Defined.

(** One turn of a conversation: [{"role": ..., "content": [{"text": ...}]}]. *)
Record ContentBlock := { text : string }.
Record Message := { role : GptRoles; content : list ContentBlock }.

(** The arguments of one [s3_client.converse] call. *)
Record Request := {
  modelId : string;
  messages : list Message;
  maxTokens : Z;
  temperature : float;
  top_k : Z
}.

(** What the service hands back: a JSON-like object. *)
#[warnings="-register-all"]
Inductive PyObj : Type :=
| OStr (s : string)
| OInt (n : Z)
| OBool (b : bool)
| ONone
| OList (l : list PyObj)
| ODict (items : list (string * PyObj)).

Definition type_name (o : PyObj) : string :=
  match o with
  | OStr _ => "str"
  | OInt _ => "int"
  | OBool _ => "bool"
  | ONone => "NoneType"
  | OList _ => "list"
  | ODict _ => "dict"
  end.

(** [o[key]] with a string key *)
Definition getitem_key (o : PyObj) (key : string) : Py.Result PyObj :=
  match o with
  | ODict items =>
      match list_find (fun kv => String.eqb kv.1 key) items with
      | Some (_, (_, v)) => Py.Ok v
      | None => Py.Raise (Py.KeyError (Py.repr key))
      end
  | OList _ =>
      Py.Raise (Py.TypeError "list indices must be integers or slices, not str")
  | OStr _ =>
      Py.Raise (Py.TypeError "string indices must be integers, not 'str'")
  | _ => Py.Raise (Py.TypeError
           ("'" +:+ type_name o +:+ "' object is not subscriptable"))
  end.

(** [o[0]] *)
Definition getitem_0 (o : PyObj) : Py.Result PyObj :=
  match o with
  | OList l =>
      match l with
      | x :: _ => Py.Ok x
      | [] => Py.Raise (Py.IndexError "list index out of range")
      end
  | OStr s =>
      match s with
      | String c _ => Py.Ok (OStr (String c EmptyString))
      | EmptyString => Py.Raise (Py.IndexError "string index out of range")
      end
  | ODict _ => Py.Raise (Py.KeyError "0")
  | _ => Py.Raise (Py.TypeError
           ("'" +:+ type_name o +:+ "' object is not subscriptable"))
  end.

(** [o.rstrip()] *)
Definition obj_rstrip (o : PyObj) : Py.Result string :=
  match o with
  | OStr s => Py.Ok (PyStr.rstrip s)
  | _ => Py.Raise (Py.AttributeError
           ("'" +:+ type_name o +:+ "' object has no attribute 'rstrip'"))
  end.

(** [response["output"]["message"]["content"][0]["text"].rstrip()] *)
Definition response_text (response : PyObj) : Py.Result string :=
  o1 <-? getitem_key response "output";
  o2 <-? getitem_key o1 "message";
  o3 <-? getitem_key o2 "content";
  o4 <-? getitem_0 o3;
  o5 <-? getitem_key o4 "text";
  obj_rstrip o5.

Definition model_id : string := "anthropic.claude-3-5-sonnet-20240620-v1:0".

(** A matched pair:
    [(json_file, excel_file, json_desc, excel_desc)]. *)
Definition MatchedPair : Type := string * string * string * string.

(** *** Description extraction *)

Definition invalid_description : string := "Invalid description".

(** What the first branch makes of the text it cut out. *)
Definition normalise (text : string) : string :=
  PyStr.replace (PyStr.replace (PyStr.strip text) "/" "") "  " " ".

(** The body of the loop over [all_briefings], for one frame.
    [action_name] is the value [str(...)] returns, a [str]; its text is
    read back with [Py.str], the identity on a [str]. *)
Definition excel_description (excel_df : Pandas.DataFrame) : Py.Result string :=
  column <-? Pandas.getitem excel_df "Unnamed: 7";
  cell <-? Pandas.iloc column 5;
  let action_name := Py.VStr (Py.str cell) in
  if Py.isinstance_str action_name
  then
    let start := PyStr.find (Py.str action_name) ") " + 1 in
    Py.Ok (normalise (PyStr.slice_from (Py.str action_name) start))
  else Py.Ok invalid_description.

(** The marker searched for after the description: a double quote and a
    comma. *)
Definition closing_marker : string := Py.dquote +:+ ",".

(** The body of the loop over [all_json_paths], for one file text. *)
Definition json_description (json_string : string) : string :=
  let start := PyStr.find json_string ") " + 2 in
  let end_ := PyStr.find_from json_string closing_marker start - 5 in
  PyStr.strip_chars (PyStr.strip (PyStr.slice json_string start end_)) Py.dquote.

(** [d[key] = value] on a dict kept as its items in insertion order. *)
Fixpoint dict_set (d : list (string * string)) (key value : string)
  : list (string * string) :=
  match d with
  | [] => [(key, value)]
  | (k, v) :: d' =>
      if String.eqb k key then (k, value) :: d' else (k, v) :: dict_set d' key value
  end.

(** *** Matching *)

(** [SequenceMatcher(None, str(a), str(b)).ratio()] *)
Definition similarity (a b : string) : float := Difflib.ratio (Difflib.new a b).

(** The double nearest to [0.93]. *)
Definition default_threshold : float := 0x1.dc28f5c28f5c3p-1%float.

Definition match_descriptions (json_dict excel_dict : list (string * string))
    (threshold : float) : gset MatchedPair :=
  foldl (fun matches '(json_file, json_desc) =>
    foldl (fun matches '(excel_file, excel_desc) =>
      if (threshold <=? similarity json_desc excel_desc)%float
      then matches ∪ {[ (json_file, excel_file, json_desc, excel_desc) ]}
      else matches) matches excel_dict) ∅ json_dict.

(** *** Prompt assembly *)

Definition transform_string_to_prompt (text : string) (role : GptRoles)
  : list Message :=
  [ {| role := role; content := [ {| text := text |} ] |} ].

(** The f-string of [process_excel_content]. *)
Definition user_message (excel_content example_json_dump : string) : string :=
"Process the following Excel content:

" +:+ excel_content +:+
", and create a JSON file with the results.
                       The main body of the JSON should be 'briefing accion comercial'.
                       Then, 'informacion general' should be a block containing 'Nombre de la acción Comercial', 'Producto', 'Abierto/Segmentada', 'Metadata Adobe Campaign', and so on.
                       Do not translate the dictionary keys, keep the original names like 'Nombre de la acción Comercial' or 'Producto'.
                       Clean the strings of the desired format such as '•' or '\n'.
                       When there are colons, such as in 'descripcion campaña', they should also be part of the JSON as key-value pairs.
                       The 'n.a.' values should be null.
                       Ensure that the dates are formatted as 'yyyy-mm-dd'.
                       The structure should be similar to the following example, with different success and metric criteria based off the typology of the campaign:
                       " +:+ example_json_dump +:+
"
                       The most important part is the " +:+ Py.dquote +:+ "MEDICIONES" +:+ Py.dquote +:+
" section in the Briefing, where the adobe input is shown, with the different success criteria if any and campaign typology.
                       The descripcion campaña part is also important, where the promotional code is shown, as well as specific conditions such as amount of bills to be domiciled.
                       ".

(** *** The world outside and the state of a run *)

(** Everything the script reads from outside.  [converse n request] is
    the answer of the completion service to the call number [n] (counted
    from [0]); [set_order] is the order in which Python iterates a set. *)
Record World := {
  project_dir : string;
  listdir : string -> Py.Result (list string);
  read_excel : string -> Py.Result Pandas.DataFrame;
  to_string : Pandas.DataFrame -> string;
  read_text : string -> Py.Result string;
  json_loads : string -> Py.Result PyObj;
  json_dumps : PyObj -> string;
  converse : nat -> Request -> Py.Result PyObj;
  set_order : gset MatchedPair -> list MatchedPair
}.

(** The mutable state: the lines printed, the calls made to the service,
    the list objects (a reference is an index into [lists]) and the global
    [example_json_content], which starts as [None]. *)
Record State := {
  stdout : list string;
  sent : list Request;
  lists : list (list Message);
  example_json_content : PyObj
}.

Definition initial_state : State :=
  {| stdout := []; sent := []; lists := []; example_json_content := ONone |}.

(** How a piece of the script ends: normally, by [exit(code)], or with an
    exception nobody caught. *)
Inductive Outcome (A : Type) : Type :=
| Done (a : A)
| Exited (code : Z)
| Uncaught (e : Py.Exception).
Arguments Done {A} a.
Arguments Exited {A} code.
Arguments Uncaught {A} e.

Definition M (A : Type) : Type := State -> Outcome A * State.

Definition ret {A} (a : A) : M A := fun st => (Done a, st).

Definition bind {A B} (m : M A) (k : A -> M B) : M B :=
  fun st =>
    match m st with
    | (Done a, st') => k a st'
    | (Exited code, st') => (Exited code, st')
    | (Uncaught e, st') => (Uncaught e, st')
    end.

Notation "x <~ m ; k" := (bind m (fun x => k))
  (at level 100, m at next level, right associativity, only parsing).
Notation "m ;; k" := (bind m (fun _ => k))
  (at level 100, right associativity, only parsing).

Definition lift {A} (r : Py.Result A) : M A :=
  fun st =>
    match r with
    | Py.Ok a => (Done a, st)
    | Py.Raise e => (Uncaught e, st)
    end.

(** [try: body except (ClientError, Exception) as e: handler e].
    [exit] raises [SystemExit], which is no [Exception] and passes. *)
Definition try_except {A} (body : M A) (handler : Py.Exception -> M A) : M A :=
  fun st =>
    match body st with
    | (Uncaught e, st') => handler e st'
    | r => r
    end.

(** [exit(code)] *)
Definition exit {A} (code : Z) : M A := fun st => (Exited code, st).

Fixpoint join_with (sep : string) (args : list string) : string :=
  match args with
  | [] => ""
  | [x] => x
  | x :: rest => x +:+ sep +:+ join_with sep rest
  end.

(** [print] of its arguments, joined by spaces: one entry of [stdout]
    per call. *)
Definition print (args : list string) : M unit :=
  fun st =>
    (Done tt,
     {| stdout := stdout st ++ [join_with " " args]; sent := sent st;
        lists := lists st; example_json_content := example_json_content st |}).

(** A new empty list object. *)
Definition new_list : M nat :=
  fun st =>
    (Done (length (lists st)),
     {| stdout := stdout st; sent := sent st; lists := lists st ++ [[]];
        example_json_content := example_json_content st |}).

(** [ref.extend(items)]: the object itself changes. *)
Definition list_extend (ref : nat) (items : list Message) : M unit :=
  fun st =>
    (Done tt,
     {| stdout := stdout st; sent := sent st;
        lists := alter (fun l => l ++ items) ref (lists st);
        example_json_content := example_json_content st |}).

Definition list_read (ref : nat) : M (list Message) :=
  fun st => (Done (default [] (lists st !! ref)), st).

Definition get_example_json_content : M PyObj :=
  fun st => (Done (example_json_content st), st).

Definition set_example_json_content (v : PyObj) : M unit :=
  fun st =>
    (Done tt,
     {| stdout := stdout st; sent := sent st; lists := lists st;
        example_json_content := v |}).

(** [for x in l: body x] *)
Fixpoint for_each {A} (l : list A) (body : A -> M unit) : M unit :=
  match l with
  | [] => ret tt
  | x :: l' => body x ;; for_each l' body
  end.

(** A loop that carries a value along. *)
Fixpoint fold_each {A B} (l : list A) (acc : B) (body : B -> A -> M B) : M B :=
  match l with
  | [] => ret acc
  | x :: l' => acc' <~ body acc x; fold_each l' acc' body
  end.

(** [os.path.join(a, b)] and [os.path.basename(p)] on POSIX. *)
Definition path_join (a b : string) : string :=
  if PyStr.starts_with (PyStr.chars "/") (PyStr.chars b) then b
  else if String.eqb a "" || PyStr.endswith a "/" then a +:+ b
  else a +:+ "/" +:+ b.

Fixpoint before_slash (l : list ascii) : list ascii :=
  match l with
  | [] => []
  | c :: l' => if Ascii.eqb c "/" then [] else c :: before_slash l'
  end.

Definition basename (p : string) : string :=
  PyStr.of_chars (reverse (before_slash (reverse (PyStr.chars p)))).

Section Program.
Variable w : World.

Definition jsons_path : string := path_join (project_dir w) "reports/jsons".
Definition briefings_path : string := path_join (project_dir w) "reports/briefing".
Definition shots_path : string := path_join (project_dir w) "reports/Shots".

(** [s3_client.converse(...)]: the call is recorded, then answered. *)
Definition s3_converse (request : Request) : M PyObj :=
  fun st =>
    let st' := {| stdout := stdout st; sent := sent st ++ [request];
                  lists := lists st;
                  example_json_content := example_json_content st |} in
    match converse w (length (sent st)) request with
    | Py.Ok response => (Done response, st')
    | Py.Raise e => (Uncaught e, st')
    end.

(** The test is [example_json_content is None]: whatever [json.load]
    returns is stored, and a stored [None] is loaded again by the next
    call. *)
Definition load_example_json : M unit :=
  content <~ get_example_json_content;
  match content with
  | ONone =>
      let example_json_path := path_join shots_path "example_json_1.json" in
      file <~ lift (read_text w example_json_path);
      v <~ lift (json_loads w file);
      set_example_json_content v
  | _ => ret tt
  end.

(** The line both requesters print before [exit(1)]. *)
Definition error_line (e : Py.Exception) : string :=
  "ERROR: Can't invoke '" +:+ model_id +:+ "'. Reason: " +:+ Py.exc_str e.

Definition process_excel_content (excel_content : string) : M string :=
  load_example_json ;;
  content <~ get_example_json_content;
  let dump := json_dumps w content in
  let conversation :=
    [ {| role := USER;
         content := [ {| text := user_message excel_content dump |} ] |} ] in
  try_except
    (response <~ s3_converse
       {| modelId := model_id; messages := conversation; maxTokens := 4096;
          temperature := 0x1.47ae147ae147bp-7%float (* 0.01 *); top_k := 250 |};
     lift (response_text response))
    (fun e => print [error_line e] ;; exit 1).

Definition keep_excel (f : string) : bool :=
  PyStr.endswith f ".xlsx" || PyStr.endswith f ".xls".

Definition list_excel_files_path (directory : string) : M (list string) :=
  names <~ lift (listdir w directory);
  ret (map (path_join directory) (filter (fun f => keep_excel f = true) names)).

Definition list_json_file_paths (directory : string) : M (list string) :=
  names <~ lift (listdir w directory);
  ret (map (path_join directory)
         (filter (fun f => PyStr.endswith f ".json" = true) names)).

(** [claude_prompt = []] and the seven [extend] statements. *)
Definition build_claude_prompt (example_jsons_list example_briefings_list : list string)
  : M nat :=
  claude_prompt <~ new_list;
  list_extend claude_prompt (transform_string_to_prompt Prompts.rules USER) ;;
  json_1 <~ lift (Py.list_index example_jsons_list 0);
  brf_1 <~ lift (Py.list_index example_briefings_list 0);
  t1 <~ lift (PyStr.format Prompts.first_example
                [("json_1", json_1); ("brf_1", brf_1)]);
  list_extend claude_prompt (transform_string_to_prompt t1 USER) ;;
  list_extend claude_prompt
    (transform_string_to_prompt Prompts.expected_response_1 ASSISTANT) ;;
  json_2 <~ lift (Py.list_index example_jsons_list 1);
  brf_2 <~ lift (Py.list_index example_briefings_list 1);
  t2 <~ lift (PyStr.format Prompts.second_example
                [("json_2", json_2); ("brf_2", brf_2)]);
  list_extend claude_prompt (transform_string_to_prompt t2 USER) ;;
  list_extend claude_prompt
    (transform_string_to_prompt Prompts.expected_response_2 ASSISTANT) ;;
  json_3 <~ lift (Py.list_index example_jsons_list 2);
  brf_3 <~ lift (Py.list_index example_briefings_list 2);
  t3 <~ lift (PyStr.format Prompts.third_example
                [("json_3", json_3); ("brf_3", brf_3)]);
  list_extend claude_prompt (transform_string_to_prompt t3 USER) ;;
  list_extend claude_prompt
    (transform_string_to_prompt Prompts.expected_response_3 ASSISTANT) ;;
  ret claude_prompt.

(** [prompt] is a reference: the caller's list is the one extended. *)
Definition compare_json_excel (clean_briefing json_path : string) (prompt : nat)
    (new_request : string) : M string :=
  json_content <~ lift (read_text w json_path);
  request_text <~ lift (PyStr.format new_request
                          [("clean_briefing", clean_briefing); ("json", json_content)]);
  list_extend prompt (transform_string_to_prompt request_text USER) ;;
  try_except
    (turns <~ list_read prompt;
     response <~ s3_converse
       {| modelId := model_id; messages := turns; maxTokens := 4096;
          temperature := 0x1.999999999999ap-4%float (* 0.1 *); top_k := 250 |};
     lift (response_text response))
    (fun e => print [error_line e] ;; exit 1).

(** The last loop of the script, over the matches in iteration order. *)
Definition compare_matches (matches : list MatchedPair) (claude_prompt : nat)
  : M unit :=
  for_each matches (fun '(json_file, excel_file, _, _) =>
    excel_df <~ lift (read_excel w excel_file);
    let excel_str := to_string w excel_df in
    clean_briefing <~ process_excel_content excel_str;
    discrepancies <~ compare_json_excel clean_briefing json_file claude_prompt
                       Prompts.new_request;
    let json_filename := basename json_file in
    let excel_filename := basename excel_file in
    print [ "############################ CHECK ############################
";
            "Discrepancies for " +:+ json_filename +:+ " and " +:+ excel_filename
            +:+ ":
" +:+ discrepancies ]).

(** The module-level statements, in order. *)
Definition main : M unit :=
  print [project_dir w] ;;
  print [briefings_path] ;;
  all_briefings <~ list_excel_files_path briefings_path;
  excels_descriptions <~ fold_each all_briefings [] (fun d excel_file =>
    excel_df <~ lift (read_excel w excel_file);
    description <~ lift (excel_description excel_df);
    ret (dict_set d excel_file description));
  print [pretty (length excels_descriptions); "briefing files gathered"] ;;
  all_json_paths <~ list_json_file_paths jsons_path;
  json_descriptions <~ fold_each all_json_paths [] (fun d json_file =>
    json_string <~ lift (read_text w json_file);
    ret (dict_set d json_file (json_description json_string)));
  print [pretty (length json_descriptions); "json files gathered"] ;;
  let matches :=
    match_descriptions json_descriptions excels_descriptions default_threshold in
  print [pretty (size matches); "description matches:"] ;;
  let in_order := set_order w matches in
  for_each in_order (fun '(_, _, json_desc, excel_desc) =>
    print ["JSON:"; json_desc; "vs Excel:"; excel_desc]) ;;
  example_jsons_path_list <~ list_json_file_paths shots_path;
  example_jsons <~ fold_each example_jsons_path_list [] (fun d json_file =>
    json_string <~ lift (read_text w json_file);
    ret (dict_set d json_file json_string));
  _ <~ list_excel_files_path shots_path;
  example_excels <~ fold_each [0; 1; 2] [] (fun d brf_n =>
    let example_briefing_path :=
      path_join shots_path ("example_brf_" +:+ pretty (brf_n + 1) +:+ ".xlsx") in
    example_df <~ lift (read_excel w example_briefing_path);
    clean_example_briefing <~ process_excel_content (to_string w example_df);
    ret (d ++ [clean_example_briefing]));
  let example_jsons_list := map snd example_jsons in
  let example_briefings_list := example_excels in
  claude_prompt <~ build_claude_prompt example_jsons_list example_briefings_list;
  compare_matches in_order claude_prompt.

Definition run : Outcome unit * State := main initial_state.

End Program.

(** *** What the error policy says about a run *)

(** The error, if any, with which the call number [n] ends inside the
    [try] block: raised by the service, or by reading its answer. *)
Definition call_error (w : World) (n : nat) (request : Request)
  : option Py.Exception :=
  match converse w n request with
  | Py.Raise e => Some e
  | Py.Ok response =>
      match response_text response with
      | Py.Raise e => Some e
      | Py.Ok _ => None
      end
  end.

(** Every call made so far was answered without error. *)
Definition calls_answered (w : World) (st : State) : Prop :=
  ∀ n request, sent st !! n = Some request → call_error w n request = None.

(** The last call made ended in an error, the calls before it did not,
    that call was made for [model_id], and the last line printed is the
    error line of that error. *)
Definition halted_on_failure (w : World) (st : State) : Prop :=
  ∃ earlier request e,
    sent st = earlier ++ [request] ∧
    (∀ n r, earlier !! n = Some r → call_error w n r = None) ∧
    call_error w (length earlier) request = Some e ∧
    modelId request = model_id ∧
    last (stdout st) = Some (error_line e).

(** The only exit is [exit(1)] right after a failed call. *)
Definition fatal_policy (w : World) {A} (r : Outcome A * State) : Prop :=
  match r.1 with
  | Exited code => code = 1 ∧ halted_on_failure w r.2
  | _ => calls_answered w r.2
  end.

Definition keeps_policy (w : World) {A} (m : M A) : Prop :=
  ∀ st, calls_answered w st → fatal_policy w (m st).

End CheckJson.

(** ** Concrete inputs *)

Module Scenario.
Import CheckJson.
Local Open Scope string_scope.

(** A sheet whose cell in column "Unnamed: 7", row 5, holds [v]. *)
Definition sheet_with (v : Py.Value) : Pandas.DataFrame :=
  [("Unnamed: 7", [Py.VNaN; Py.VNaN; Py.VNaN; Py.VNaN; Py.VNaN; v])].

(** The designated cell holds the number 12345. *)
Definition numeric_sheet : Pandas.DataFrame := sheet_with (Py.VInt 12345).

(** A sheet with five rows only: there is no row 5. *)
Definition short_sheet : Pandas.DataFrame :=
  [("Unnamed: 7", [Py.VNaN; Py.VNaN; Py.VNaN; Py.VNaN; Py.VNaN])].

(** The file text [[") ",1]]: the closing marker comes right after the
    first parenthesis-space, at index 4. *)
Definition early_marker_text : string :=
  "[" +:+ Py.dquote +:+ ") " +:+ Py.dquote +:+ ",1]".

(** The text of a structured record with a description field. *)
Definition record_text : string :=
  "{" +:+ Py.dquote +:+ "descripcion" +:+ Py.dquote +:+ ": " +:+ Py.dquote
  +:+ "(SMS) Envio de SMS a clientes Alta 2024" +:+ Py.dquote +:+ ", ".

(** An answer of the service whose text is [t]. *)
Definition answer (t : string) : PyObj :=
  ODict [("output",
          ODict [("message",
                  ODict [("content", OList [ODict [("text", OStr t)]])])])].

(** Two briefings, two structured records that match them one to one,
    three worked examples, and a service that always answers. *)
Definition two_pairs_world : World := {|
  project_dir := "/p";
  listdir := fun d =>
    if String.eqb d "/p/reports/briefing" then Py.Ok ["b1.xlsx"; "notes.txt"; "b2.xls"]
    else if String.eqb d "/p/reports/jsons" then Py.Ok ["j1.json"; "j2.json"]
    else Py.Ok ["example_json_1.json"; "example_json_2.json";
                "example_json_3.json"; "example_brf_1.xlsx"];
  read_excel := fun f =>
    if String.eqb f "/p/reports/briefing/b2.xls"
    then Py.Ok (sheet_with (Py.VStr "(B) Baja"))
    else Py.Ok (sheet_with (Py.VStr "(A) Alta"));
  to_string := fun _ => "sheet";
  read_text := fun f =>
    if String.eqb f "/p/reports/jsons/j2.json"
    then Py.Ok ("{ (B) Baja12345" +:+ closing_marker)
    else Py.Ok ("{ (A) Alta12345" +:+ closing_marker);
  json_loads := fun s => Py.Ok (OStr s);
  json_dumps := fun _ => "{}";
  converse := fun _ _ => Py.Ok (answer "NO_DIFF");
  set_order := elements
|}.

(** The same world, but the call number 4, the first comparison, is
    refused by the service. *)
Definition throttled_world : World := {|
  project_dir := project_dir two_pairs_world;
  listdir := listdir two_pairs_world;
  read_excel := read_excel two_pairs_world;
  to_string := to_string two_pairs_world;
  read_text := read_text two_pairs_world;
  json_loads := json_loads two_pairs_world;
  json_dumps := json_dumps two_pairs_world;
  converse := fun n _ =>
    if (n =? 4)%nat then Py.Raise (Py.ClientError "ThrottlingException")
    else Py.Ok (answer "NO_DIFF");
  set_order := elements
|}.

(** How many turns each call of a run sent, in the order of the calls. *)
Definition turns_sent (r : Outcome unit * State) : list nat :=
  map (fun request => length (messages request)) (sent r.2).

Definition few_shot_roles : list GptRoles :=
  [USER; USER; ASSISTANT; USER; ASSISTANT; USER; ASSISTANT].

(** The single turn that [transform_string_to_prompt] makes of a text. *)
Definition one_turn (r : GptRoles) (t : string) : Message :=
  {| role := r; content := [ {| text := t |} ] |}.

(** A world in which every [.json] file parses to [None], as a file
    holding null does. *)
Definition null_document_world : World := {|
  project_dir := project_dir two_pairs_world;
  listdir := listdir two_pairs_world;
  read_excel := read_excel two_pairs_world;
  to_string := to_string two_pairs_world;
  read_text := read_text two_pairs_world;
  json_loads := fun _ => Py.Ok ONone;
  json_dumps := fun _ => "null";
  converse := converse two_pairs_world;
  set_order := elements
|}.

(** A world in which no text file can be read. *)
Definition unreadable_world : World := {|
  project_dir := project_dir two_pairs_world;
  listdir := listdir two_pairs_world;
  read_excel := read_excel two_pairs_world;
  to_string := to_string two_pairs_world;
  read_text := fun _ => Py.Raise (Py.OSError "No such file or directory");
  json_loads := json_loads two_pairs_world;
  json_dumps := json_dumps two_pairs_world;
  converse := converse two_pairs_world;
  set_order := elements
|}.

End Scenario.

(** * Properties *)

(** ** The matcher of difflib always returns *)

Module DifflibFacts.
Import Difflib.

Lemma scan_row_in_rows blo bhi alo js : ∀ i j2len newj2len best,
  alo <= i →
  runs_upto (i - alo) j2len →
  runs_upto (i + 1 - alo) newj2len →
  in_rows alo (i + 1) best →
  runs_upto (i + 1 - alo) (scan_row blo bhi js i j2len newj2len best).1 ∧
  in_rows alo (i + 1) (scan_row blo bhi js i j2len newj2len best).2.
Proof.
  induction js as [|j js IH]; intros i j2len newj2len best Hi Hold Hnew Hbest;
    simpl; [done|].
  destruct (j <? blo); [by apply IH|].
  destruct (bhi <=? j); [done|].
  destruct best as [[besti bestj] bestsize].
  set (k := default 0 (j2len !! (j - 1)) + 1).
  assert (Hk : 1 <= k <= i + 1 - alo).
  { subst k. destruct (j2len !! (j - 1)) as [v|] eqn:Hv; simpl.
    - apply Hold in Hv. simpl in Hv. lia.
    - lia. }
  apply IH; [done|done| |].
  - apply map_Forall_insert_2; done.
  - destruct (bestsize <? k); [|done].
    unfold in_rows; simpl. lia.
Qed.

Lemma scan_rows_in_rows sm blo bhi alo (n : nat) : ∀ i j2len best,
  alo <= i →
  runs_upto (i - alo) j2len →
  in_rows alo i best →
  in_rows alo (i + Z.of_nat n) (scan_rows sm blo bhi (seqZ i (Z.of_nat n)) j2len best).
Proof.
  induction n as [|n IH]; intros i j2len best Hi Hold Hbest.
  - simpl. rewrite Z.add_0_r. done.
  - rewrite Nat2Z.inj_succ, seqZ_cons by lia. simpl.
    replace (Z.pred (Z.succ (Z.of_nat n))) with (Z.of_nat n) by lia.
    set (js := match sm_a sm !! Z.to_nat i with
               | Some c => default [] (b2j sm !! c) | None => [] end).
    destruct (scan_row blo bhi js i j2len ∅ best) as [newj2len best'] eqn:Hrow.
    destruct (scan_row_in_rows blo bhi alo js i j2len ∅ best) as [Hn Hb];
      [done|done|apply map_Forall_empty| |].
    { destruct Hbest as (?&?&?). unfold in_rows. lia. }
    rewrite Hrow in Hn, Hb. simpl in Hn, Hb.
    replace (i + Z.succ (Z.of_nat n)) with (Z.succ i + Z.of_nat n) by lia.
    apply IH; [lia| |done].
    replace (Z.succ i - alo) with (i + 1 - alo) by lia. done.
Qed.

Lemma extend_left_in_rows sm alo blo ahi (n : nat) want : ∀ best,
  in_rows alo ahi best → in_rows alo ahi (extend_left sm alo blo n want best).
Proof.
  induction n as [|n IH]; intros [[besti bestj] bestsize] Hbest; simpl; [done|].
  destruct ((alo <? besti) && (blo <? bestj) && same_at sm want (besti - 1) (bestj - 1))
    eqn:Hc; [|done].
  apply IH. apply andb_prop in Hc as [Hc _]. apply andb_prop in Hc as [Hc _].
  apply Z.ltb_lt in Hc. destruct Hbest as (?&?&?). unfold in_rows in *; simpl in *. lia.
Qed.

Lemma extend_right_in_rows sm alo ahi bhi (n : nat) want : ∀ best,
  in_rows alo ahi best → in_rows alo ahi (extend_right sm ahi bhi n want best).
Proof.
  induction n as [|n IH]; intros [[besti bestj] bestsize] Hbest; simpl; [done|].
  destruct ((besti + bestsize <? ahi) && (bestj + bestsize <? bhi)
            && same_at sm want (besti + bestsize) (bestj + bestsize)) eqn:Hc; [|done].
  apply IH. apply andb_prop in Hc as [Hc _]. apply andb_prop in Hc as [Hc _].
  apply Z.ltb_lt in Hc. destruct Hbest as (?&?&?). unfold in_rows in *; simpl in *. lia.
Qed.

(** The counter of [extend_left] does not cut the loop short: any counter
    of at least [besti - alo] gives the same block. *)
Lemma extend_left_counter sm alo blo want : ∀ (n m : nat) best,
  (left_room alo best <= n)%nat → (left_room alo best <= m)%nat →
  extend_left sm alo blo n want best = extend_left sm alo blo m want best.
Proof.
  assert (Hstop : ∀ k besti bestj bestsize,
            (left_room alo (besti, bestj, bestsize) <= 0)%nat →
            extend_left sm alo blo k want (besti, bestj, bestsize)
            = (besti, bestj, bestsize)).
  { intros [|k] besti bestj bestsize Hroom; simpl; [done|].
    unfold left_room in Hroom; simpl in Hroom.
    destruct (alo <? besti) eqn:Hlt; [apply Z.ltb_lt in Hlt; lia|done]. }
  induction n as [|n IH]; intros m [[besti bestj] bestsize] Hn Hm.
  - rewrite (Hstop m) by done. by rewrite (Hstop 0%nat).
  - destruct m as [|m].
    + rewrite (Hstop (S n)) by done. by rewrite (Hstop 0%nat).
    + simpl.
      destruct ((alo <? besti) && (blo <? bestj)
                && same_at sm want (besti - 1) (bestj - 1)) eqn:Hc; [|done].
      apply IH; unfold left_room in *; simpl in *; lia.
Qed.

(** Likewise for [extend_right] and [ahi - (besti + bestsize)]. *)
Lemma extend_right_counter sm ahi bhi want : ∀ (n m : nat) best,
  (right_room ahi best <= n)%nat → (right_room ahi best <= m)%nat →
  extend_right sm ahi bhi n want best = extend_right sm ahi bhi m want best.
Proof.
  assert (Hstop : ∀ k besti bestj bestsize,
            (right_room ahi (besti, bestj, bestsize) <= 0)%nat →
            extend_right sm ahi bhi k want (besti, bestj, bestsize)
            = (besti, bestj, bestsize)).
  { intros [|k] besti bestj bestsize Hroom; simpl; [done|].
    unfold right_room in Hroom; simpl in Hroom.
    destruct (besti + bestsize <? ahi) eqn:Hlt; [apply Z.ltb_lt in Hlt; lia|done]. }
  induction n as [|n IH]; intros m [[besti bestj] bestsize] Hn Hm.
  - rewrite (Hstop m) by done. by rewrite (Hstop 0%nat).
  - destruct m as [|m].
    + rewrite (Hstop (S n)) by done. by rewrite (Hstop 0%nat).
    + simpl.
      destruct ((besti + bestsize <? ahi) && (bestj + bestsize <? bhi)
                && same_at sm want (besti + bestsize) (bestj + bestsize)) eqn:Hc; [|done].
      apply IH; unfold right_room in *; simpl in *; lia.
Qed.
(** The block returned for [alo <= ahi] lies inside the rows asked for. *)
Lemma find_longest_match_in_rows sm alo ahi blo bhi :
  alo <= ahi → in_rows alo ahi (find_longest_match sm alo ahi blo bhi).
Proof.
  intros Hle. unfold find_longest_match.
  apply extend_right_in_rows, extend_left_in_rows,
    extend_right_in_rows, extend_left_in_rows.
  replace (ahi - alo) with (Z.of_nat (Z.to_nat (ahi - alo))) by lia.
  replace ahi with (alo + Z.of_nat (Z.to_nat (ahi - alo))) at 1 by lia.
  apply scan_rows_in_rows; [lia|apply map_Forall_empty|].
  unfold in_rows; simpl; lia.
Qed.

Lemma queue_cost_cons r queue :
  queue_cost (r :: queue) = (range_cost r + queue_cost queue)%nat.
Proof. reflexivity. Qed.

Lemma blocks_loop_step sm fuel alo ahi blo bhi queue blocks :
  blocks_loop sm (S fuel) ((alo, ahi, blo, bhi) :: queue) blocks =
  let '(i, j, k) := find_longest_match sm alo ahi blo bhi in
  if negb (k =? 0)
  then
    let q1 := if (alo <? i) && (blo <? j)
              then (alo, i, blo, j) :: queue else queue in
    let q2 := if (i + k <? ahi) && (j + k <? bhi)
              then (i + k, ahi, j + k, bhi) :: q1 else q1 in
    blocks_loop sm fuel q2 (blocks ++ [(i, j, k)])
  else blocks_loop sm fuel queue blocks.
Proof. reflexivity. Qed.

Lemma blocks_loop_returns sm : ∀ fuel queue blocks,
  Forall range_ok queue →
  (queue_cost queue <= fuel)%nat →
  is_Some (blocks_loop sm fuel queue blocks).
Proof.
  induction fuel as [|fuel IH]; intros queue blocks Hok Hcost.
  - destruct queue as [|[[[alo ahi] blo] bhi] queue]; [by eexists|].
    rewrite queue_cost_cons in Hcost. unfold range_cost in Hcost. lia.
  - destruct queue as [|[[[alo ahi] blo] bhi] queue]; [by eexists|].
    rewrite blocks_loop_step.
    apply Forall_cons in Hok as [Hr Hok]. unfold range_ok in Hr; cbn [fst snd] in Hr.
    pose proof (find_longest_match_in_rows sm alo ahi blo bhi Hr) as Hin.
    destruct (find_longest_match sm alo ahi blo bhi) as [[i j] k].
    destruct Hin as (Hi & Hik & Hk); cbn [fst snd] in Hi, Hik, Hk.
    rewrite queue_cost_cons in Hcost. unfold range_cost in Hcost; cbn [fst snd] in Hcost.
    destruct (k =? 0) eqn:Hk0; cbn [negb].
    + apply IH; [done|lia].
    + apply Z.eqb_neq in Hk0. cbv zeta.
      apply IH.
      * destruct ((i + k <? ahi) && (j + k <? bhi)) eqn:H2;
          destruct ((alo <? i) && (blo <? j)) eqn:H1;
          repeat apply Forall_cons_2; try done; unfold range_ok; cbn [fst snd];
          repeat match goal with
                 | H : _ && _ = true |- _ => apply andb_prop in H as [? ?]
                 | H : (_ <? _) = true |- _ => apply Z.ltb_lt in H
                 end; lia.
      * destruct ((i + k <? ahi) && (j + k <? bhi)) eqn:H2;
          destruct ((alo <? i) && (blo <? j)) eqn:H1;
          rewrite ?queue_cost_cons; unfold range_cost; cbn [fst snd];
          repeat match goal with
                 | H : _ && _ = true |- _ => apply andb_prop in H as [? ?]
                 | H : (_ <? _) = true |- _ => apply Z.ltb_lt in H
                 end; lia.
Qed.

(** [get_matching_blocks] returns on every matcher: the fuel is enough. *)
Lemma get_matching_blocks_returns sm : is_Some (get_matching_blocks sm).
Proof.
  unfold get_matching_blocks.
  destruct (blocks_loop_returns sm (blocks_fuel sm)
              [(0, Z.of_nat (length (sm_a sm)), 0, Z.of_nat (length (sm_b sm)))] [])
    as [blocks Hb].
  - repeat constructor. unfold range_ok; cbn [fst snd]; lia.
  - rewrite queue_cost_cons. unfold range_cost, blocks_fuel, queue_cost; cbn [fst snd foldr]. lia.
  - rewrite Hb.
    destruct (collapse _ _ _) as [[[i1 j1] k1] non_adjacent]. done.
Qed.

End DifflibFacts.

(** ** The similarity matcher *)

Module MatcherFacts.
Import CheckJson.

Lemma SFcompare_swap x y :
  SFcompare y x = option_map CompOpp (SFcompare x y).
Proof.
  destruct x as [sx|sx| |sx mx ex], y as [sy|sy| |sy my ey]; simpl;
    try reflexivity; try (by destruct sx); try (by destruct sy);
    try (by destruct sx, sy).
  destruct sx, sy; try reflexivity; f_equal.
  - rewrite (Z.compare_antisym ey ex).
    destruct (ey ?= ex); simpl; try reflexivity.
    rewrite (Pos.compare_cont_antisym mx my Eq). simpl.
    by destruct (Pos.compare_cont Eq mx my).
  - rewrite (Z.compare_antisym ey ex).
    destruct (ey ?= ex); simpl; try reflexivity.
    rewrite (Pos.compare_cont_antisym mx my Eq). simpl.
    by destruct (Pos.compare_cont Eq mx my).
Qed.

(** A float strictly below another is not at or above it. *)
Lemma float_ltb_not_leb (x y : float) :
  (x <? y)%float = true → (y <=? x)%float = false.
Proof.
  rewrite ltb_spec, leb_spec. unfold SFltb, SFleb.
  rewrite (SFcompare_swap (Prim2SF x) (Prim2SF y)).
  by destruct (SFcompare (Prim2SF x) (Prim2SF y)) as [[]|].
Qed.

(** The inner loop adds, to what it starts from, the pairs of one
    structured record that pass the test. *)
Lemma elem_of_inner_loop threshold json_file json_desc (excel_dict : list (string * string)) :
  ∀ (matches : gset MatchedPair) (x : MatchedPair),
  x ∈ foldl (fun matches '(excel_file, excel_desc) =>
               if (threshold <=? similarity json_desc excel_desc)%float
               then matches ∪ {[ (json_file, excel_file, json_desc, excel_desc) ]}
               else matches) matches excel_dict
  ↔ x ∈ matches ∨
    ∃ excel_file excel_desc,
      (excel_file, excel_desc) ∈ excel_dict ∧
      (threshold <=? similarity json_desc excel_desc)%float = true ∧
      x = (json_file, excel_file, json_desc, excel_desc).
Proof.
  induction excel_dict as [|[excel_file excel_desc] excel_dict IH]; intros matches x; simpl.
  - split; [by left|]. intros [?|(?&?&H&_)]; [done|]. by apply elem_of_nil in H.
  - rewrite IH. destruct (threshold <=? similarity json_desc excel_desc)%float eqn:Hge.
    + rewrite elem_of_union, elem_of_singleton. split.
      * intros [[?| ->]|(f&d&?&?&?)]; [by left| |].
        -- right. exists excel_file, excel_desc. split; [left|done].
        -- right. exists f, d. split; [by right|done].
      * intros [?|(f&d&[Heq|?]%elem_of_cons&?&?)]; [by left; left| |].
        -- injection Heq as -> ->. by left; right.
        -- right. by exists f, d.
    + split.
      * intros [?|(f&d&?&?&?)]; [by left|]. right. exists f, d. split; [by right|done].
      * intros [?|(f&d&[Heq|?]%elem_of_cons&Hd&?)]; [by left| |].
        -- injection Heq as -> ->. congruence.
        -- right. by exists f, d.
Qed.

(** The pairs in the result are exactly the cross pairs that pass the
    test [similarity >= threshold]. *)
Lemma elem_of_match_descriptions json_dict excel_dict threshold
    json_file excel_file json_desc excel_desc :
  (json_file, excel_file, json_desc, excel_desc)
    ∈ match_descriptions json_dict excel_dict threshold
  ↔ (json_file, json_desc) ∈ json_dict ∧ (excel_file, excel_desc) ∈ excel_dict ∧
    (threshold <=? similarity json_desc excel_desc)%float = true.
Proof.
  unfold match_descriptions.
  assert (Hgen : ∀ (matches : gset MatchedPair),
    (json_file, excel_file, json_desc, excel_desc)
      ∈ foldl (fun matches '(json_file, json_desc) =>
           foldl (fun matches '(excel_file, excel_desc) =>
             if (threshold <=? similarity json_desc excel_desc)%float
             then matches ∪ {[ (json_file, excel_file, json_desc, excel_desc) ]}
             else matches) matches excel_dict) matches json_dict
    ↔ (json_file, excel_file, json_desc, excel_desc) ∈ matches ∨
      ((json_file, json_desc) ∈ json_dict ∧ (excel_file, excel_desc) ∈ excel_dict ∧
       (threshold <=? similarity json_desc excel_desc)%float = true)).
  { induction json_dict as [|[jf jd] json_dict IH]; intros matches; simpl.
    - split; [by left|]. intros [?|(H&_)]; [done|]. by apply elem_of_nil in H.
    - rewrite IH, elem_of_inner_loop. split.
      + intros [[?|(f&d&?&?&Heq)]|(?&?&?)]; [by left| |].
        * injection Heq as -> -> -> ->. right. split; [left|done].
        * right. split; [by right|done].
      + intros [?|([Heq|?]%elem_of_cons&?&?)]; [by left; left| |].
        * injection Heq as -> ->. left; right. by exists excel_file, excel_desc.
        * by right. }
  rewrite Hgen. split; [|by right]. intros [H|?]; [|done]. by apply elem_of_empty in H.
Qed.

(** C1.  Every tuple of the set returned by [match_descriptions] has
    [similarity >= threshold] on its two descriptions, and a pair of
    descriptions whose similarity is below the threshold is in no tuple of
    the set, whatever the two mappings and the threshold. *)
Theorem match_descriptions_threshold_gate
    (json_dict excel_dict : list (string * string)) (threshold : float) :
  (∀ json_file excel_file json_desc excel_desc,
     (json_file, excel_file, json_desc, excel_desc)
       ∈ match_descriptions json_dict excel_dict threshold →
     (threshold <=? similarity json_desc excel_desc)%float = true) ∧
  (∀ json_desc excel_desc,
     (similarity json_desc excel_desc <? threshold)%float = true →
     ∀ json_file excel_file,
       (json_file, excel_file, json_desc, excel_desc)
         ∉ match_descriptions json_dict excel_dict threshold).
Proof.
  split.
  - intros jf ef jd ed H. by apply elem_of_match_descriptions in H as (_&_&?).
  - intros jd ed Hlow jf ef H. apply elem_of_match_descriptions in H as (_&_&Hge).
    apply float_ltb_not_leb in Hlow. congruence.
Qed.

Lemma match_descriptions_threshold_gate_witness :
  (default_threshold <=? similarity "Alta" "Alta")%float = true.
Proof.
  apply (proj1 (match_descriptions_threshold_gate
                  [("a.json", "Alta")]%string [("x.xlsx", "Alta")]%string
                  default_threshold) "a.json"%string "x.xlsx"%string).
  apply elem_of_match_descriptions.
  split; [by left|]. split; [by left|]. vm_compute. reflexivity.
Defined.

(** C8.  The set returned depends on the two mappings only through their
    items: listing the same items in another order gives the same set,
    and so does running the matcher again. *)
Theorem match_descriptions_order_independent
    (json_dict json_dict' excel_dict excel_dict' : list (string * string))
    (threshold : float) :
  json_dict ≡ₚ json_dict' → excel_dict ≡ₚ excel_dict' →
  match_descriptions json_dict excel_dict threshold
  = match_descriptions json_dict' excel_dict' threshold.
Proof.
  intros Hj He. apply set_eq. intros [[[jf ef] jd] ed].
  rewrite !elem_of_match_descriptions. by rewrite Hj, He.
Qed.

Lemma match_descriptions_order_independent_witness :
  match_descriptions [("a.json", "Alta"); ("b.json", "Baja")]%string
                     [("x.xlsx", "Alta"); ("y.xlsx", "Baja")]%string default_threshold
  = match_descriptions [("b.json", "Baja"); ("a.json", "Alta")]%string
                       [("y.xlsx", "Baja"); ("x.xlsx", "Alta")]%string default_threshold.
Proof.
  apply match_descriptions_order_independent; apply Permutation_swap.
Defined.

Lemma similarity_sentinel :
  similarity invalid_description invalid_description = 1%float.
Proof. vm_compute. reflexivity. Qed.

(** C2, as stated, fails: at threshold 1.0 two records that both carry
    the sentinel are matched with each other. *)
Lemma sentinel_pair_is_matched :
  ¬ (∀ (json_dict excel_dict : list (string * string)) (threshold : float),
       (threshold <=? 1)%float = true →
       ∀ json_file excel_file json_desc excel_desc,
         (json_file, excel_file, json_desc, excel_desc)
           ∈ match_descriptions json_dict excel_dict threshold →
         json_desc ≠ invalid_description ∧ excel_desc ≠ invalid_description).
Proof.
  intros H.
  destruct (H [("a.json", invalid_description)]%string
              [("b.xlsx", invalid_description)]%string 1%float eq_refl
              "a.json"%string "b.xlsx"%string invalid_description invalid_description)
    as [Hne _]; [|done].
  apply elem_of_match_descriptions. rewrite similarity_sentinel.
  split; [by left|]. split; [by left|]. reflexivity.
Qed.

(** C2, amended.  The matcher treats the sentinel like any other
    description: a pair one of whose descriptions is the sentinel is in
    the result exactly when it passes the test, and two sentinels, whose
    similarity is 1.0, are matched at every threshold up to 1.0. *)
Theorem sentinel_is_matched_like_any_text
    (json_dict excel_dict : list (string * string)) (threshold : float) :
  (∀ json_file excel_file json_desc excel_desc,
     json_desc = invalid_description ∨ excel_desc = invalid_description →
     ((json_file, excel_file, json_desc, excel_desc)
        ∈ match_descriptions json_dict excel_dict threshold
      ↔ (json_file, json_desc) ∈ json_dict ∧ (excel_file, excel_desc) ∈ excel_dict ∧
        (threshold <=? similarity json_desc excel_desc)%float = true)) ∧
  (∀ json_file excel_file,
     (threshold <=? 1)%float = true →
     (json_file, invalid_description) ∈ json_dict →
     (excel_file, invalid_description) ∈ excel_dict →
     (json_file, excel_file, invalid_description, invalid_description)
       ∈ match_descriptions json_dict excel_dict threshold).
Proof.
  split.
  - intros jf ef jd ed _. apply elem_of_match_descriptions.
  - intros jf ef Ht Hj He. apply elem_of_match_descriptions.
    by rewrite similarity_sentinel.
Qed.

Lemma sentinel_is_matched_like_any_text_witness :
  ("a.json", "b.xlsx", invalid_description, invalid_description)%string
    ∈ match_descriptions [("a.json", invalid_description)]%string
                         [("b.xlsx", invalid_description)]%string default_threshold.
Proof.
  apply (sentinel_is_matched_like_any_text
           [("a.json", invalid_description)]%string
           [("b.xlsx", invalid_description)]%string default_threshold).
  - reflexivity.
  - by left.
  - by left.
Defined.

Lemma ratio_matched sm :
  Difflib.ratio sm
  = Difflib._calculate_ratio (Difflib.matched sm)
      (Z.of_nat (length (Difflib.sm_a sm)) + Z.of_nat (length (Difflib.sm_b sm))).
Proof.
  unfold Difflib.ratio, Difflib.matched.
  by destruct (DifflibFacts.get_matching_blocks_returns sm) as [blocks ->].
Qed.

(** C3, as stated, fails: the two orders of "tide" and "diet" score 0.25
    and 0.5. *)
Lemma similarity_not_symmetric :
  ¬ (∀ a b : string, (similarity a b =? similarity b a)%float = true).
Proof.
  intros H. specialize (H "tide" "diet")%string. vm_compute in H. discriminate.
Qed.

(** C3, amended.  Both orders divide by the same [len(a) + len(b)], so
    the two similarities are equal whenever the matcher finds as many
    matching characters in one order as in the other. *)
Theorem similarity_symmetric_when_matched_equal (a b : string) :
  Difflib.matched (Difflib.new a b) = Difflib.matched (Difflib.new b a) →
  similarity a b = similarity b a.
Proof.
  intros Hm. unfold similarity. rewrite !ratio_matched, Hm. simpl.
  by rewrite Z.add_comm.
Qed.

Lemma similarity_symmetric_when_matched_equal_witness :
  similarity "Campaign A" "Campaign B" = similarity "Campaign B" "Campaign A".
Proof.
  apply similarity_symmetric_when_matched_equal. vm_compute. reflexivity.
Defined.

End MatcherFacts.

(** ** Searching and slicing text *)

Module PyStrFacts.
Import PyStr.

Lemma chars_of_chars l : chars (of_chars l) = l.
Proof. apply list_ascii_of_string_of_list_ascii. Qed.

Lemma of_chars_chars s : of_chars (chars s) = s.
Proof. apply string_of_list_ascii_of_string. Qed.

Lemma chars_append s1 s2 : chars (s1 +:+ s2) = chars s1 ++ chars s2.
Proof. induction s1 as [|c s1 IH]; simpl; [done|]. by rewrite <- IH. Qed.

Lemma length_chars s : Z.of_nat (length (chars s)) = len s.
Proof. unfold len. induction s as [|c s IH]; simpl; [done|]. lia. Qed.

Lemma starts_with_app sub : ∀ s,
  starts_with sub s = true → ∃ post, s = sub ++ post.
Proof.
  induction sub as [|c sub IH]; intros s H; simpl in H.
  - by exists s.
  - destruct s as [|d s]; [done|].
    apply andb_prop in H as [Hc Hs]. apply Ascii.eqb_eq in Hc as ->.
    destruct (IH s Hs) as [post ->]. by exists post.
Qed.


(** An answer other than [-1] is an index at which [sub] fits in the text. *)
Lemma find_chars_found sub : ∀ s i r,
  find_chars sub s i = r → r ≠ -1 → 0 <= i →
  i <= r ∧ r + Z.of_nat (length sub) <= i + Z.of_nat (length s).
Proof.
  induction s as [|c s IH]; intros i r Hr Hne Hi; simpl in Hr.
  - destruct (starts_with sub []) eqn:Hs; [|congruence].
    apply starts_with_app in Hs as [post Hs]. subst r.
    apply (f_equal length) in Hs. rewrite length_app in Hs. simpl in Hs. lia.
  - destruct (starts_with sub (c :: s)) eqn:Hs.
    + apply starts_with_app in Hs as [post Hs]. subst r.
      apply (f_equal length) in Hs. rewrite length_app in Hs. lia.
    + destruct (IH (i + 1) r Hr Hne) as [? ?]; [lia|]. simpl length. lia.
Qed.

Lemma clamp_inside n i : 0 <= i <= n → clamp n i = i.
Proof. intros ?. unfold clamp. destruct (i <? 0) eqn:Hi; lia. Qed.






Lemma find_found s sub i :
  find s sub = i → i ≠ -1 → 0 <= i ∧ i + len sub <= len s.
Proof.
  unfold find, find_from. pose proof (length_chars s) as Hlen.
  destruct (len s <? 0) eqn:Hn; [lia|]. rewrite clamp_inside by lia.
  change (Z.to_nat 0) with 0%nat. rewrite drop_0.
  intros Hr Hne. apply find_chars_found in Hr as [? ?]; [|done|lia].
  rewrite !length_chars in *. lia.
Qed.

Lemma find_from_found s sub start p :
  0 <= start <= len s →
  find_from s sub start = p → p ≠ -1 → start <= p ∧ p + len sub <= len s.
Proof.
  intros Hs. unfold find_from. pose proof (length_chars s) as Hlen.
  destruct (len s <? start) eqn:Hn; [lia|]. rewrite clamp_inside by lia.
  intros Hr Hne. apply find_chars_found in Hr as [? ?]; [|done|lia].
  rewrite length_drop in *. pose proof (length_chars sub). lia.
Qed.


Lemma slice_between s lo hi :
  0 <= lo <= len s → 0 <= hi <= len s → slice s lo hi = between s lo hi.
Proof. intros ? ?. unfold slice, between. by rewrite !clamp_inside. Qed.

End PyStrFacts.

(** ** Description extraction *)

Module ExtractionFacts.
Import CheckJson Scenario.

(** Whatever the cell holds, the description is made from its text: the
    branch that assigns the sentinel is never taken. *)
Lemma excel_description_of_cell excel_df column cell :
  Pandas.getitem excel_df "Unnamed: 7" = Py.Ok column →
  Pandas.iloc column 5 = Py.Ok cell →
  excel_description excel_df
  = Py.Ok (normalise (PyStr.slice_from (Py.str cell)
                        (PyStr.find (Py.str cell) ") " + 1))).
Proof. intros Hc Hi. unfold excel_description. rewrite Hc. simpl. by rewrite Hi. Qed.

(** C4.  With the number 12345 in the designated cell the description is
    the text "12345", not the sentinel, and with an empty cell it is "nan";
    with no row 5 in the sheet the extraction raises [IndexError]. *)
Theorem excel_description_numeric_or_absent_cell :
  excel_description numeric_sheet = Py.Ok "12345"%string ∧
  excel_description numeric_sheet ≠ Py.Ok invalid_description ∧
  excel_description (sheet_with Py.VNaN) = Py.Ok "nan"%string ∧
  excel_description short_sheet
  = Py.Raise (Py.IndexError "single positional indexer is out-of-bounds").
Proof.
  repeat split; try (vm_compute; reflexivity). vm_compute. discriminate.
Qed.



(** C10, as stated, fails: in the text [[") ",1]] the closing marker is
    found at index 4, the end index [4 - 5] is negative and counts from
    the end of the text, and the description is [,1], taken from after
    the marker. *)
Lemma json_description_end_wraps :
  ¬ (∀ json_string i p,
       PyStr.find json_string ") " = i → i ≠ -1 →
       PyStr.find_from json_string closing_marker (i + 2) = p → p ≠ -1 →
       json_description json_string
       = PyStr.strip_chars
           (PyStr.strip (PyStr.between json_string (i + 2) (p - 5))) Py.dquote).
Proof.
  intros H.
  assert (E : json_description early_marker_text
              = PyStr.strip_chars
                  (PyStr.strip (PyStr.between early_marker_text (2 + 2) (4 - 5)))
                  Py.dquote).
  { apply H; [vm_compute; reflexivity|discriminate|vm_compute; reflexivity|discriminate]. }
  vm_compute in E. discriminate E.
Qed.

(** C10, amended.  When ") " occurs in the text and the closing marker
    is found, from two characters after it on, at an index [p >= 5], the
    description is the text from two characters after the first ") " up to
    five characters before the marker, stripped of whitespace and then of
    double quotes. *)
Theorem json_description_between_markers json_string i p :
  PyStr.find json_string ") " = i → i ≠ -1 →
  PyStr.find_from json_string closing_marker (i + 2) = p → 5 <= p →
  json_description json_string
  = PyStr.strip_chars
      (PyStr.strip (PyStr.between json_string (i + 2) (p - 5))) Py.dquote.
Proof.
  intros Hi Hfound Hp Hp5.
  destruct (PyStrFacts.find_found _ _ _ Hi Hfound) as [Hi0 Hi2].
  change (PyStr.len ") ") with 2 in Hi2.
  destruct (PyStrFacts.find_from_found json_string closing_marker (i + 2) p)
    as [Hlo Hhi]; [lia|done|lia|].
  change (PyStr.len closing_marker) with 2 in Hhi.
  unfold json_description. rewrite Hi, Hp.
  by rewrite PyStrFacts.slice_between by lia.
Qed.

Lemma json_description_between_markers_witness :
  json_description record_text = "Envio de SMS a clientes Alta"%string.
Proof.
  rewrite (json_description_between_markers record_text 21 56).
  - vm_compute. reflexivity.
  - vm_compute. reflexivity.
  - discriminate.
  - vm_compute. reflexivity.
  - lia.
Defined.

End ExtractionFacts.

(** ** The few-shot conversation *)

Module PromptFacts.
Import CheckJson Scenario.

Lemma format_first_example json_1 brf_1 :
  ∃ t, PyStr.format Prompts.first_example
         [("json_1", json_1); ("brf_1", brf_1)]%string = Py.Ok t.
Proof. eexists. vm_compute. reflexivity. Qed.

Lemma format_second_example json_2 brf_2 :
  ∃ t, PyStr.format Prompts.second_example
         [("json_2", json_2); ("brf_2", brf_2)]%string = Py.Ok t.
Proof. eexists. vm_compute. reflexivity. Qed.

Lemma format_third_example json_3 brf_3 :
  ∃ t, PyStr.format Prompts.third_example
         [("json_3", json_3); ("brf_3", brf_3)]%string = Py.Ok t.
Proof. eexists. vm_compute. reflexivity. Qed.

Lemma format_new_request clean_briefing json :
  ∃ t, PyStr.format Prompts.new_request
         [("clean_briefing", clean_briefing); ("json", json)]%string = Py.Ok t.
Proof. eexists. vm_compute. reflexivity. Qed.

Lemma alter_last {A} (f : A → A) (l : list A) (x : A) :
  alter f (length l) (l ++ [x]) = l ++ [f x].
Proof. induction l as [|y l IH]; simpl; [done|]. f_equal. apply IH. Qed.

Lemma lookup_last {A} (l : list A) (x : A) : (l ++ [x]) !! length l = Some x.
Proof. induction l as [|y l IH]; simpl; [done|]. apply IH. Qed.

(** C5.  From any three worked examples (at least three structured
    texts and three converted briefings) the builder returns a new list of
    exactly seven turns with the roles user, user, assistant, user,
    assistant, user, assistant; it prints nothing and calls no service. *)
Theorem claude_prompt_shape (st : State) (example_jsons_list example_briefings_list : list string) :
  (3 <= length example_jsons_list)%nat →
  (3 <= length example_briefings_list)%nat →
  ∃ st' turns,
    build_claude_prompt example_jsons_list example_briefings_list st
      = (Done (length (lists st)), st') ∧
    lists st' !! length (lists st) = Some turns ∧
    length turns = 7%nat ∧
    map role turns = [USER; USER; ASSISTANT; USER; ASSISTANT; USER; ASSISTANT] ∧
    stdout st' = stdout st ∧ sent st' = sent st.
Proof.
  intros Hj Hb.
  destruct example_jsons_list as [|j1 [|j2 [|j3 jsons]]]; simpl in Hj; try lia.
  destruct example_briefings_list as [|b1 [|b2 [|b3 briefs]]]; simpl in Hb; try lia.
  destruct (format_first_example j1 b1) as [t1 H1].
  destruct (format_second_example j2 b2) as [t2 H2].
  destruct (format_third_example j3 b3) as [t3 H3].
  unfold build_claude_prompt.
  cbv [bind new_list list_extend lift ret Py.list_index].
  cbn [lookup list_lookup stdout sent lists example_json_content].
  rewrite H1, H2, H3.
  repeat (cbn [stdout sent lists example_json_content]; rewrite ?alter_last).
  eexists _, _. split; [reflexivity|].
  cbn [stdout sent lists example_json_content].
  split; [apply lookup_last|]. done.
Qed.

Lemma claude_prompt_shape_witness :
  ∃ st' turns,
    build_claude_prompt ["j1"; "j2"; "j3"]%string ["b1"; "b2"; "b3"]%string initial_state
      = (Done 0%nat, st') ∧
    lists st' !! 0%nat = Some turns ∧
    length turns = 7%nat ∧
    map role turns = [USER; USER; ASSISTANT; USER; ASSISTANT; USER; ASSISTANT] ∧
    stdout st' = [] ∧ sent st' = [].
Proof.
  apply (claude_prompt_shape initial_state ["j1"; "j2"; "j3"]%string
           ["b1"; "b2"; "b3"]%string); simpl; lia.
Defined.

(** C6.  With two matched pairs the run ends normally and its seven
    calls send 1, 1, 1, 1, 8, 1 and 9 turns: the comparison of the second
    pair carries the request of the first pair as well, so it ends in two
    user turns. *)
Theorem second_comparison_sends_nine_turns :
  (run two_pairs_world).1 = Done tt ∧
  turns_sent (run two_pairs_world) = [1; 1; 1; 1; 8; 1; 9]%nat ∧
  (map role <$> (messages <$> last (sent (run two_pairs_world).2)))
  = Some (few_shot_roles ++ [USER; USER]).
Proof. vm_compute. done. Qed.

(** Whatever the service does with the call, a comparison leaves the
    caller's list one user turn longer than it found it, and the call
    sends the whole of that longer list. *)
Lemma compare_json_excel_extends_shared_prompt
    (w : World) (st : State) clean_briefing json_path json_content
    (prompt : nat) (turns : list Message) :
  read_text w json_path = Py.Ok json_content →
  lists st !! prompt = Some turns →
  ∃ new_turn,
    role new_turn = USER ∧
    lists (compare_json_excel w clean_briefing json_path prompt
             Prompts.new_request st).2 !! prompt
    = Some (turns ++ [new_turn]) ∧
    (messages <$> last (sent (compare_json_excel w clean_briefing json_path prompt
                                Prompts.new_request st).2))
    = Some (turns ++ [new_turn]).
Proof.
  intros Hread Hturns.
  destruct (format_new_request clean_briefing json_content) as [t Ht].
  exists {| role := USER; content := [ {| text := t |} ] |}.
  split; [done|].
  unfold compare_json_excel. rewrite Hread.
  cbv [bind lift list_extend list_read try_except s3_converse print exit].
  rewrite Ht. cbn [stdout sent lists example_json_content].
  assert (Hnew : alter (fun l => l ++ transform_string_to_prompt t USER) prompt (lists st)
                 !! prompt
                 = Some (turns ++ [ {| role := USER; content := [ {| text := t |} ] |} ])).
  { rewrite list_lookup_alter_eq, Hturns. reflexivity. }
  rewrite Hnew. cbn [default].
  destruct (converse w _ _) as [response|e];
    [destruct (response_text response)|];
    cbn [fst snd stdout sent lists example_json_content]; rewrite Hnew, last_snoc;
    done.
Qed.

End PromptFacts.

(** ** Failures of the completion service *)

Module ProgramFacts.
Import CheckJson Scenario.

Section Policy.
Variable w : World.

Lemma keeps_ret {A} (a : A) : keeps_policy w (ret a).
Proof. intros st H. exact H. Qed.

Lemma keeps_bind {A B} (m : M A) (k : A → M B) :
  keeps_policy w m → (∀ a, keeps_policy w (k a)) → keeps_policy w (bind m k).
Proof.
  intros Hm Hk st Hst. specialize (Hm st Hst). unfold bind.
  destruct (m st) as [[a|code|e] st']; unfold fatal_policy in *; simpl in *.
  - by apply Hk.
  - done.
  - done.
Qed.

Lemma keeps_lift {A} (r : Py.Result A) : keeps_policy w (lift r).
Proof. intros st H. unfold lift. by destruct r. Qed.

Lemma keeps_print args : keeps_policy w (print args).
Proof. intros st H. exact H. Qed.

Lemma keeps_new_list : keeps_policy w new_list.
Proof. intros st H. exact H. Qed.

Lemma keeps_list_extend ref items : keeps_policy w (list_extend ref items).
Proof. intros st H. exact H. Qed.

Lemma keeps_list_read ref : keeps_policy w (list_read ref).
Proof. intros st H. exact H. Qed.

Lemma keeps_get_example_json_content : keeps_policy w get_example_json_content.
Proof. intros st H. exact H. Qed.

Lemma keeps_set_example_json_content v : keeps_policy w (set_example_json_content v).
Proof. intros st H. exact H. Qed.

Lemma keeps_for_each {A} (l : list A) (body : A → M unit) :
  (∀ x, keeps_policy w (body x)) → keeps_policy w (for_each l body).
Proof.
  intros Hb. induction l as [|x l IH]; simpl.
  - apply keeps_ret.
  - apply keeps_bind; [apply Hb|]. intros _. apply IH.
Qed.

Lemma keeps_fold_each {A B} (l : list A) (body : B → A → M B) :
  (∀ acc x, keeps_policy w (body acc x)) →
  ∀ acc, keeps_policy w (fold_each l acc body).
Proof.
  intros Hb. induction l as [|x l IH]; intros acc; simpl.
  - apply keeps_ret.
  - apply keeps_bind; [apply Hb|]. intros acc'. apply IH.
Qed.

(** One call inside [try ... except ...: print(...); exit(1)]. *)
Lemma keeps_guarded_call (request : Request) :
  modelId request = model_id →
  keeps_policy w
    (try_except
       (bind (s3_converse w request) (fun response => lift (response_text response)))
       (fun e => bind (print [error_line e]) (fun _ => exit 1))).
Proof.
  intros Hmodel st Hst.
  unfold try_except, bind, s3_converse, lift, print, exit, fatal_policy.
  assert (Hold : ∀ n r, (sent st ++ [request]) !! n = Some r →
                 call_error w (length (sent st)) request = None →
                 call_error w n r = None).
  { intros n r Hn Hlast. apply lookup_app_Some in Hn as [Hn|[Hge Hn]]; [by apply Hst|].
    apply list_lookup_singleton_Some in Hn as [Hn ->].
    by replace n with (length (sent st)) by lia. }
  assert (Hfail : ∀ e (out : list string), call_error w (length (sent st)) request = Some e →
            halted_on_failure w
              {| stdout := out ++ [error_line e]; sent := sent st ++ [request];
                 lists := lists st; example_json_content := example_json_content st |}).
  { intros e out He. exists (sent st), request, e. simpl.
    split; [done|]. split; [apply Hst|]. split; [done|]. split; [done|].
    apply last_snoc. }
  unfold call_error in *.
  destruct (converse w (length (sent st)) request) as [response|e]; simpl.
  - destruct (response_text response) as [t|e]; simpl.
    + intros n r Hn. by apply Hold.
    + split; [done|]. by apply Hfail.
  - split; [done|]. by apply Hfail.
Qed.

Lemma keeps_load_example_json : keeps_policy w (load_example_json w).
Proof.
  unfold load_example_json. apply keeps_bind; [apply keeps_get_example_json_content|].
  intros content. destruct content; try apply keeps_ret.
  apply keeps_bind; [apply keeps_lift|]. intros file.
  apply keeps_bind; [apply keeps_lift|]. intros v.
  apply keeps_set_example_json_content.
Qed.

Lemma keeps_process_excel_content excel_content :
  keeps_policy w (process_excel_content w excel_content).
Proof.
  unfold process_excel_content.
  apply keeps_bind; [apply keeps_load_example_json|]. intros _.
  apply keeps_bind; [apply keeps_get_example_json_content|]. intros content.
  by apply keeps_guarded_call.
Qed.

Lemma keeps_compare_json_excel clean_briefing json_path prompt new_request :
  keeps_policy w (compare_json_excel w clean_briefing json_path prompt new_request).
Proof.
  unfold compare_json_excel.
  apply keeps_bind; [apply keeps_lift|]. intros json_content.
  apply keeps_bind; [apply keeps_lift|]. intros request_text.
  apply keeps_bind; [apply keeps_list_extend|]. intros _.
  intros st Hst.
  change (fatal_policy w
            (try_except
               (bind (s3_converse w
                        {| modelId := model_id;
                           messages := default [] (lists st !! prompt);
                           maxTokens := 4096;
                           temperature := 0x1.999999999999ap-4%float;
                           top_k := 250 |})
                     (fun response => lift (response_text response)))
               (fun e => bind (print [error_line e]) (fun _ => exit 1)) st)).
  by apply keeps_guarded_call.
Qed.

Lemma keeps_list_excel_files_path directory :
  keeps_policy w (list_excel_files_path w directory).
Proof.
  unfold list_excel_files_path. apply keeps_bind; [apply keeps_lift|].
  intros names. apply keeps_ret.
Qed.

Lemma keeps_list_json_file_paths directory :
  keeps_policy w (list_json_file_paths w directory).
Proof.
  unfold list_json_file_paths. apply keeps_bind; [apply keeps_lift|].
  intros names. apply keeps_ret.
Qed.

Lemma keeps_build_claude_prompt jsons briefings :
  keeps_policy w (build_claude_prompt jsons briefings).
Proof.
  unfold build_claude_prompt.
  repeat first
    [ apply keeps_ret
    | apply keeps_bind;
      [ first [apply keeps_new_list | apply keeps_list_extend | apply keeps_lift] | intros ? ] ].
Qed.

Lemma keeps_compare_matches matches claude_prompt :
  keeps_policy w (compare_matches w matches claude_prompt).
Proof.
  unfold compare_matches. apply keeps_for_each.
  intros [[[json_file excel_file] json_desc] excel_desc].
  apply keeps_bind; [apply keeps_lift|]. intros excel_df.
  apply keeps_bind; [apply keeps_process_excel_content|]. intros clean_briefing.
  apply keeps_bind; [apply keeps_compare_json_excel|]. intros discrepancies.
  apply keeps_print.
Qed.

Lemma keeps_main : keeps_policy w (main w).
Proof.
  unfold main.
  apply keeps_bind; [apply keeps_print|]. intros _.
  apply keeps_bind; [apply keeps_print|]. intros _.
  apply keeps_bind; [apply keeps_list_excel_files_path|]. intros all_briefings.
  apply keeps_bind.
  { apply keeps_fold_each. intros d excel_file.
    apply keeps_bind; [apply keeps_lift|]. intros excel_df.
    apply keeps_bind; [apply keeps_lift|]. intros description. apply keeps_ret. }
  intros excels_descriptions.
  apply keeps_bind; [apply keeps_print|]. intros _.
  apply keeps_bind; [apply keeps_list_json_file_paths|]. intros all_json_paths.
  apply keeps_bind.
  { apply keeps_fold_each. intros d json_file.
    apply keeps_bind; [apply keeps_lift|]. intros json_string. apply keeps_ret. }
  intros json_descriptions.
  apply keeps_bind; [apply keeps_print|]. intros _.
  apply keeps_bind; [apply keeps_print|]. intros _.
  apply keeps_bind.
  { apply keeps_for_each. intros [[[? ?] ?] ?]. apply keeps_print. }
  intros _.
  apply keeps_bind; [apply keeps_list_json_file_paths|]. intros example_jsons_path_list.
  apply keeps_bind.
  { apply keeps_fold_each. intros d json_file.
    apply keeps_bind; [apply keeps_lift|]. intros json_string. apply keeps_ret. }
  intros example_jsons.
  apply keeps_bind; [apply keeps_list_excel_files_path|]. intros _.
  apply keeps_bind.
  { apply keeps_fold_each. intros d brf_n.
    apply keeps_bind; [apply keeps_lift|]. intros example_df.
    apply keeps_bind; [apply keeps_process_excel_content|]. intros clean.
    apply keeps_ret. }
  intros example_excels.
  apply keeps_bind; [apply keeps_build_claude_prompt|]. intros claude_prompt.
  apply keeps_compare_matches.
Qed.

End Policy.

(** C7.  In every run, whatever the files and the service: if a call to
    the completion service made by either requester ends in an error,
    raised by the service or by reading its answer, then that call is the
    last one made, it was made for the model identifier [model_id], the
    last line printed is the text ERROR: Can't invoke '<model identifier>'.
    Reason: <str of the error>, and the process has ended by [exit(1)]. *)
Theorem service_failure_is_fatal (w : World) (n : nat) (request : Request)
    (e : Py.Exception) :
  sent (run w).2 !! n = Some request →
  call_error w n request = Some e →
  (run w).1 = Exited 1 ∧
  length (sent (run w).2) = S n ∧
  modelId request = "anthropic.claude-3-5-sonnet-20240620-v1:0" ∧
  last (stdout (run w).2)
  = Some ("ERROR: Can't invoke '" +:+ modelId request +:+ "'. Reason: "
          +:+ Py.exc_str e).
Proof.
  intros Hn He.
  assert (Hpol : fatal_policy w (run w)).
  { apply keeps_main. intros k r Hk. by destruct k. }
  unfold fatal_policy in Hpol.
  destruct (run w) as [[[]|code|e'] st]; simpl in *.
  - rewrite (Hpol n request Hn) in He. discriminate.
  - destruct Hpol as
      [-> (earlier & request' & e'' & Hsent & Hok & Herr & Hmodel & Hlast)].
    rewrite Hsent in Hn. apply lookup_app_Some in Hn as [Hn|[Hge Hn]].
    + rewrite (Hok n request Hn) in He. discriminate.
    + apply list_lookup_singleton_Some in Hn as [Hn0 ->].
      assert (n = length earlier) as -> by lia.
      rewrite Herr in He. injection He as ->.
      rewrite Hsent, length_app. simpl. split; [done|]. split; [lia|].
      split; [exact Hmodel|]. rewrite Hlast, Hmodel. reflexivity.
  - rewrite (Hpol n request Hn) in He. discriminate.
Qed.

Lemma service_failure_is_fatal_witness :
  (run throttled_world).1 = Exited 1 ∧
  length (sent (run throttled_world).2) = 5%nat ∧
  last (stdout (run throttled_world).2)
  = Some "ERROR: Can't invoke 'anthropic.claude-3-5-sonnet-20240620-v1:0'. Reason: ThrottlingException".
Proof.
  destruct (service_failure_is_fatal throttled_world 4
              (default {| modelId := EmptyString; messages := []; maxTokens := 0;
                          temperature := 0%float; top_k := 0 |}
                 (sent (run throttled_world).2 !! 4%nat))
              (Py.ClientError "ThrottlingException"))
    as (Hexit & Hlen & Hmodel & Hline).
  - vm_compute. reflexivity.
  - vm_compute. reflexivity.
  - split; [exact Hexit|]. split; [exact Hlen|].
    rewrite Hline, Hmodel. reflexivity.
Defined.

End ProgramFacts.

(** * Further properties of the code *)

Module MatcherExtras.
Import CheckJson.

Lemma SFleb_trans x y z : SFleb x y = true → SFleb y z = true → SFleb x z = true.
Proof.
  unfold SFleb.
  destruct x as [sx|sx| |sx mx ex], y as [sy|sy| |sy my ey], z as [sz|sz| |sz mz ez];
    simpl; try discriminate; try reflexivity;
    repeat match goal with b : bool |- _ => destruct b end;
    simpl; try discriminate; try reflexivity.
  all: rewrite ?Pos.compare_cont_spec; simpl.
  all: try (destruct (Z.compare_spec ex ey), (Z.compare_spec ey ez), (Z.compare_spec ex ez);
       simpl; try discriminate; try reflexivity; try lia).
  all: subst.
  all: try (destruct (Pos.compare_spec mx my), (Pos.compare_spec my mz), (Pos.compare_spec mx mz);
       simpl; try discriminate; try reflexivity; try lia).
Qed.

(** [<=] on floats is transitive. *)
Lemma float_leb_trans (x y z : float) :
  (x <=? y)%float = true → (y <=? z)%float = true → (x <=? z)%float = true.
Proof. rewrite !leb_spec. apply SFleb_trans. Qed.

(** X1.  No qualifying pair is dropped: whenever a structured record and
    a spreadsheet record are in the mappings and their descriptions pass
    the test [similarity >= threshold], their tuple is in the result.  One
    record can so be matched with several records of the other side. *)
Theorem match_descriptions_keeps_every_qualifying_pair
    (json_dict excel_dict : list (string * string)) (threshold : float)
    json_file json_desc excel_file excel_desc :
  (json_file, json_desc) ∈ json_dict →
  (excel_file, excel_desc) ∈ excel_dict →
  (threshold <=? similarity json_desc excel_desc)%float = true →
  (json_file, excel_file, json_desc, excel_desc)
    ∈ match_descriptions json_dict excel_dict threshold.
Proof. intros Hj He Hge. by apply MatcherFacts.elem_of_match_descriptions. Qed.

Lemma match_descriptions_keeps_every_qualifying_pair_witness :
  ("a.json", "x.xlsx", "Alta", "Alta")%string
    ∈ match_descriptions [("a.json", "Alta")]%string
        [("x.xlsx", "Alta"); ("y.xlsx", "Alta ")]%string default_threshold
  ∧ ("a.json", "y.xlsx", "Alta", "Alta ")%string
    ∈ match_descriptions [("a.json", "Alta")]%string
        [("x.xlsx", "Alta"); ("y.xlsx", "Alta ")]%string 0%float.
Proof.
  split; apply match_descriptions_keeps_every_qualifying_pair;
    try (vm_compute; reflexivity).
  - by left.
  - by left.
  - by left.
  - right. by left.
Defined.

(** X2.  With no structured record, or with no spreadsheet record, the
    result is the empty set. *)
Theorem match_descriptions_empty_mapping
    (json_dict excel_dict : list (string * string)) (threshold : float) :
  match_descriptions [] excel_dict threshold = ∅ ∧
  match_descriptions json_dict [] threshold = ∅.
Proof.
  split; [reflexivity|].
  apply set_eq. intros [[[jf ef] jd] ed].
  rewrite MatcherFacts.elem_of_match_descriptions. split.
  - intros (_ & H & _). by apply elem_of_nil in H.
  - intros H. by apply elem_of_empty in H.
Qed.

Lemma size_inner_loop threshold json_file json_desc (excel_dict : list (string * string)) :
  ∀ matches : gset MatchedPair,
  (size (foldl (fun matches '(excel_file, excel_desc) =>
                  if (threshold <=? similarity json_desc excel_desc)%float
                  then matches ∪ {[ (json_file, excel_file, json_desc, excel_desc) ]}
                  else matches) matches excel_dict)
   <= size matches + length excel_dict)%nat.
Proof.
  induction excel_dict as [|[ef ed] excel_dict IH]; intros matches; simpl; [lia|].
  etrans; [apply IH|].
  destruct (threshold <=? similarity json_desc ed)%float; [|lia].
  rewrite size_union_alt.
  assert (size (({[ (json_file, ef, json_desc, ed) ]} : gset MatchedPair) ∖ matches) <= 1)%nat.
  { etrans; [apply (subseteq_size _ {[ (json_file, ef, json_desc, ed) ]});
               by apply subseteq_difference_l|].
    by rewrite size_singleton. }
  lia.
Qed.

(** X3.  The result has at most [len(json_dict) * len(excel_dict)]
    tuples: one comparison, and at most one tuple, per cross pair. *)
Theorem match_descriptions_size_bound
    (json_dict excel_dict : list (string * string)) (threshold : float) :
  (size (match_descriptions json_dict excel_dict threshold)
   <= length json_dict * length excel_dict)%nat.
Proof.
  unfold match_descriptions.
  assert (Hgen : ∀ matches : gset MatchedPair,
    (size (foldl (fun matches '(json_file, json_desc) =>
             foldl (fun matches '(excel_file, excel_desc) =>
               if (threshold <=? similarity json_desc excel_desc)%float
               then matches ∪ {[ (json_file, excel_file, json_desc, excel_desc) ]}
               else matches) matches excel_dict) matches json_dict)
     <= size matches + length json_dict * length excel_dict)%nat).
  { induction json_dict as [|[jf jd] json_dict IH]; intros matches; simpl; [lia|].
    etrans; [apply IH|].
    pose proof (size_inner_loop threshold jf jd excel_dict matches). lia. }
  specialize (Hgen ∅). by rewrite size_empty in Hgen.
Qed.

(** X4.  Raising the threshold never adds a pair: the result for the
    higher threshold is contained in the result for the lower one. *)
Theorem match_descriptions_threshold_monotone
    (json_dict excel_dict : list (string * string)) (low high : float) :
  (low <=? high)%float = true →
  match_descriptions json_dict excel_dict high
  ⊆ match_descriptions json_dict excel_dict low.
Proof.
  intros Hle [[[jf ef] jd] ed].
  rewrite !MatcherFacts.elem_of_match_descriptions.
  intros (Hj & He & Hge). split; [done|]. split; [done|].
  by apply (float_leb_trans low high).
Qed.

Lemma match_descriptions_threshold_monotone_witness :
  match_descriptions [("a.json", "Alta")]%string [("x.xlsx", "Alta ")]%string
    default_threshold
  ⊆ match_descriptions [("a.json", "Alta")]%string [("x.xlsx", "Alta ")]%string
      0%float.
Proof. apply match_descriptions_threshold_monotone. vm_compute. reflexivity. Defined.

(** X5.  Every tuple of the result pairs a record of the first mapping
    with a record of the second, each with its own description. *)
Theorem match_descriptions_tuples_come_from_the_mappings
    (json_dict excel_dict : list (string * string)) (threshold : float)
    json_file excel_file json_desc excel_desc :
  (json_file, excel_file, json_desc, excel_desc)
    ∈ match_descriptions json_dict excel_dict threshold →
  (json_file, json_desc) ∈ json_dict ∧ (excel_file, excel_desc) ∈ excel_dict.
Proof.
  intros H. apply MatcherFacts.elem_of_match_descriptions in H as (Hj & He & _). done.
Qed.

Lemma match_descriptions_tuples_come_from_the_mappings_witness :
  ("a.json", "Alta")%string ∈ [("a.json", "Alta")]%string ∧
  ("x.xlsx", "Alta")%string ∈ [("x.xlsx", "Alta"); ("y.xlsx", "Baja")]%string.
Proof.
  apply (match_descriptions_tuples_come_from_the_mappings
           [("a.json", "Alta")]%string [("x.xlsx", "Alta"); ("y.xlsx", "Baja")]%string
           default_threshold).
  apply MatcherFacts.elem_of_match_descriptions.
  split; [by left|]. split; [by left|]. vm_compute. reflexivity.
Defined.

End MatcherExtras.

Module ExtractionExtras.
Import CheckJson Scenario.

Lemma getitem_missing (df : Pandas.DataFrame) label :
  (∀ cells, (label, cells) ∉ df) →
  Pandas.getitem df label = Py.Raise (Py.KeyError (Py.repr label)).
Proof.
  intros Hno. unfold Pandas.getitem.
  destruct (list_find _ df) as [[i [l cells]]|] eqn:Hf; [|done].
  apply list_find_Some in Hf as (Hi & Heq & _). simpl in Heq.
  apply Is_true_true in Heq.
  apply String.eqb_eq in Heq. subst l.
  destruct (Hno cells). by eapply list_elem_of_lookup_2.
Qed.

(** X6.  The extraction raises in two cases only, and never returns the
    sentinel for them: a sheet with no column "Unnamed: 7" raises
    [KeyError], a column with fewer than six rows raises [IndexError];
    with six rows or more a description is returned. *)
Theorem excel_description_errors (excel_df : Pandas.DataFrame) :
  ((∀ cells, ("Unnamed: 7"%string, cells) ∉ excel_df) →
   excel_description excel_df = Py.Raise (Py.KeyError "'Unnamed: 7'")) ∧
  (∀ column, Pandas.getitem excel_df "Unnamed: 7" = Py.Ok column →
     (length column <= 5)%nat →
     excel_description excel_df
     = Py.Raise (Py.IndexError "single positional indexer is out-of-bounds")) ∧
  (∀ column, Pandas.getitem excel_df "Unnamed: 7" = Py.Ok column →
     (5 < length column)%nat →
     ∃ description, excel_description excel_df = Py.Ok description).
Proof.
  split; [|split].
  - intros Hno. unfold excel_description. by rewrite (getitem_missing _ _ Hno).
  - intros column Hc Hlen. unfold excel_description. rewrite Hc. simpl.
    unfold Pandas.iloc. by rewrite lookup_ge_None_2 by lia.
  - intros column Hc Hlen. unfold excel_description. rewrite Hc. simpl.
    unfold Pandas.iloc.
    destruct (lookup_lt_is_Some_2 column 5%nat Hlen) as [cell ->]. simpl. eauto.
Qed.

Lemma excel_description_errors_witness :
  excel_description [("Unnamed: 6"%string, [Py.VStr "x"])]
  = Py.Raise (Py.KeyError "'Unnamed: 7'")
  ∧ excel_description short_sheet
    = Py.Raise (Py.IndexError "single positional indexer is out-of-bounds")
  ∧ ∃ description, excel_description numeric_sheet = Py.Ok description.
Proof.
  split; [|split].
  - apply (proj1 (excel_description_errors [("Unnamed: 6"%string, [Py.VStr "x"])])).
    intros cells Hin. apply elem_of_cons in Hin as [Hin|Hin]; [discriminate|].
    by apply elem_of_nil in Hin.
  - eapply (proj1 (proj2 (excel_description_errors short_sheet))).
    + reflexivity.
    + simpl. lia.
  - eapply (proj2 (proj2 (excel_description_errors numeric_sheet))).
    + reflexivity.
    + simpl. lia.
Defined.

Lemma of_chars_app l1 l2 :
  PyStr.of_chars (l1 ++ l2) = PyStr.of_chars l1 +:+ PyStr.of_chars l2.
Proof.
  unfold PyStr.of_chars. induction l1 as [|c l1 IH]; simpl; [done|]. by rewrite IH.
Qed.

Lemma strip_leading_space s : PyStr.strip (" " +:+ s) = PyStr.strip s.
Proof. reflexivity. Qed.

(** X7.  When the text of the designated cell is [pre ++ ") " ++ post]
    and that is its first parenthesis-space, the description is what the
    normalisation makes of [post]: everything up to and including the
    parenthesis is cut off. *)
Theorem excel_description_after_delimiter excel_df column cell (pre post : string) :
  Pandas.getitem excel_df "Unnamed: 7" = Py.Ok column →
  Pandas.iloc column 5 = Py.Ok cell →
  Py.str cell = pre +:+ ") " +:+ post →
  PyStr.find (pre +:+ ") " +:+ post) ") " = PyStr.len pre →
  excel_description excel_df = Py.Ok (normalise post).
Proof.
  intros Hc Hi Htext Hfind.
  rewrite (ExtractionFacts.excel_description_of_cell _ _ _ Hc Hi).
  rewrite Htext, Hfind. f_equal.
  assert (Hslice : PyStr.slice_from (pre +:+ ") " +:+ post) (PyStr.len pre + 1)
                   = " " +:+ post).
  { unfold PyStr.slice_from.
    pose proof (PyStrFacts.length_chars pre) as Hp.
    pose proof (PyStrFacts.length_chars (pre +:+ ") " +:+ post)) as Hall.
    rewrite !PyStrFacts.chars_append, !length_app in Hall. simpl in Hall.
    rewrite PyStrFacts.clamp_inside by lia.
    rewrite !PyStrFacts.chars_append.
    replace (Z.to_nat (PyStr.len pre + 1)) with (length (PyStr.chars pre) + 1)%nat by lia.
    rewrite drop_app_add. simpl.
    by rewrite PyStrFacts.of_chars_chars. }
  rewrite Hslice. unfold normalise. by rewrite strip_leading_space.
Qed.

Lemma excel_description_after_delimiter_witness :
  excel_description (sheet_with (Py.VStr "Nombre (ABC) Envio de  SMS / clientes  "))
  = Py.Ok "Envio de SMS clientes"%string.
Proof.
  rewrite (excel_description_after_delimiter
             (sheet_with (Py.VStr "Nombre (ABC) Envio de  SMS / clientes  "))
             [Py.VNaN; Py.VNaN; Py.VNaN; Py.VNaN; Py.VNaN;
              Py.VStr "Nombre (ABC) Envio de  SMS / clientes  "]
             (Py.VStr "Nombre (ABC) Envio de  SMS / clientes  ")
             "Nombre (ABC" "Envio de  SMS / clientes  ").
  - vm_compute. reflexivity.
  - reflexivity.
  - reflexivity.
  - reflexivity.
  - vm_compute. reflexivity.
Defined.

Lemma lstrip_by_head p l c rest :
  PyStr.lstrip_by p l = c :: rest → p c = false.
Proof.
  induction l as [|d l IH]; simpl; [done|].
  destruct (p d) eqn:Hd; [done|]. intros [= -> _]. done.
Qed.

Lemma lstrip_by_suffix p l : ∃ pre, l = pre ++ PyStr.lstrip_by p l.
Proof.
  induction l as [|d l [pre IH]]; simpl; [by exists []|].
  destruct (p d); [|by exists []]. exists (d :: pre). simpl. by rewrite <- IH.
Qed.

Lemma rstrip_by_last p l rest c :
  PyStr.rstrip_by p l = rest ++ [c] → p c = false.
Proof.
  unfold PyStr.rstrip_by. intros H. apply (f_equal reverse) in H.
  rewrite reverse_involutive, reverse_app in H. simpl in H.
  by apply lstrip_by_head in H.
Qed.

Lemma rstrip_by_prefix p l : ∃ post, l = PyStr.rstrip_by p l ++ post.
Proof.
  unfold PyStr.rstrip_by. destruct (lstrip_by_suffix p (reverse l)) as [pre H].
  exists (reverse pre). apply (f_equal reverse) in H.
  by rewrite reverse_involutive, reverse_app in H.
Qed.

Lemma strip_by_head p l c rest : PyStr.strip_by p l = c :: rest → p c = false.
Proof.
  unfold PyStr.strip_by. intros H.
  destruct (rstrip_by_prefix p (PyStr.lstrip_by p l)) as [post Hp].
  rewrite H in Hp. simpl in Hp. by apply lstrip_by_head in Hp.
Qed.

Lemma strip_by_last p l rest c : PyStr.strip_by p l = rest ++ [c] → p c = false.
Proof. unfold PyStr.strip_by. apply rstrip_by_last. Qed.

(** X9.  The description taken from a structured record never begins and
    never ends with a double quote. *)
Theorem json_description_no_outer_quote (json_string rest : string) :
  json_description json_string ≠ Py.dquote +:+ rest ∧
  json_description json_string ≠ rest +:+ Py.dquote.
Proof.
  unfold json_description, PyStr.strip_chars.
  set (p := fun c => existsb (Ascii.eqb c) (PyStr.chars Py.dquote)).
  set (l := PyStr.chars (PyStr.strip _)).
  split; intros H; apply (f_equal PyStr.chars) in H;
    rewrite PyStrFacts.chars_of_chars, PyStrFacts.chars_append in H.
  - apply strip_by_head in H. discriminate.
  - apply strip_by_last in H. discriminate.
Qed.

(** X10.  When ") " occurs in the text and no closing marker follows it,
    the end index is [-1 - 5] and counts from the end: the description is
    the text from two characters after the first ") " to six characters
    before the end of the text, stripped of whitespace and of double
    quotes. *)
Theorem json_description_without_closing_marker json_string i :
  PyStr.find json_string ") " = i → i ≠ -1 →
  PyStr.find_from json_string closing_marker (i + 2) = -1 →
  json_description json_string
  = PyStr.strip_chars
      (PyStr.strip
         (PyStr.between json_string (i + 2) (PyStr.len json_string - 6)))
      Py.dquote.
Proof.
  intros Hi Hfound Hnone.
  destruct (PyStrFacts.find_found _ _ _ Hi Hfound) as [Hi0 Hi2].
  change (PyStr.len ") ") with 2 in Hi2.
  unfold json_description. rewrite Hi, Hnone. do 2 f_equal.
  unfold PyStr.slice, PyStr.between.
  rewrite (PyStrFacts.clamp_inside _ (i + 2)) by lia.
  unfold PyStr.clamp at 1. simpl. do 2 f_equal. lia.
Qed.

Lemma json_description_without_closing_marker_witness :
  json_description "{(A) Envio de SMS a clientes}"%string = "Envio de SMS a cli"%string.
Proof.
  rewrite (json_description_without_closing_marker "{(A) Envio de SMS a clientes}" 3).
  - vm_compute. reflexivity.
  - vm_compute. reflexivity.
  - discriminate.
  - vm_compute. reflexivity.
Defined.

Lemma replace_chars_elements old new : ∀ s skip c,
  c ∈ PyStr.replace_chars old new s skip → c ∈ s ∨ c ∈ new.
Proof.
  induction s as [|d s IH]; intros skip c; simpl; [by left|].
  destruct skip as [|k].
  - destruct (PyStr.starts_with old (d :: s)).
    + intros [Hc|Hc]%elem_of_app; [by right|].
      apply IH in Hc as [Hc|Hc]; [left; by right|by right].
    + intros [->|Hc]%elem_of_cons; [left; by left|].
      apply IH in Hc as [Hc|Hc]; [left; by right|by right].
  - intros Hc. apply IH in Hc as [Hc|Hc]; [left; by right|by right].
Qed.

Lemma replace_chars_removes (c : ascii) : ∀ s skip,
  (skip <= 0)%nat → c ∉ PyStr.replace_chars [c] [] s skip.
Proof.
  induction s as [|d s IH]; intros skip Hskip; simpl; [by intros ?%elem_of_nil|].
  destruct skip as [|k]; [|lia].
  destruct (Ascii.eqb c d) eqn:Hcd; simpl.
  - apply IH. simpl. lia.
  - intros [->|Hc]%elem_of_cons; [by rewrite Ascii.eqb_refl in Hcd|].
    by apply (IH 0%nat).
Qed.

Lemma replace_nonempty s c old new :
  PyStr.replace s (String c old) new
  = PyStr.of_chars
      (PyStr.replace_chars (c :: PyStr.chars old) (PyStr.chars new) (PyStr.chars s) O).
Proof. reflexivity. Qed.

(** X8.  A description taken from a spreadsheet never contains "/". *)
Theorem excel_description_has_no_slash (excel_df : Pandas.DataFrame)
    (description : string) :
  excel_description excel_df = Py.Ok description →
  "/"%char ∉ PyStr.chars description.
Proof.
  unfold excel_description. intros H.
  destruct (Pandas.getitem excel_df "Unnamed: 7") as [column|]; [simpl in H|done].
  destruct (Pandas.iloc column 5) as [cell|]; [simpl in H|done].
  injection H as <-. unfold normalise.
  set (t := PyStr.strip _).
  rewrite (replace_nonempty _ " " " "), (replace_nonempty t "/" "").
  rewrite !PyStrFacts.chars_of_chars.
  intros Hin. apply replace_chars_elements in Hin as [Hin|Hin].
  - by apply (replace_chars_removes "/" (PyStr.chars t) 0%nat).
  - apply elem_of_cons in Hin as [Hin|Hin]; [discriminate|by apply elem_of_nil in Hin].
Qed.

Lemma excel_description_has_no_slash_witness :
  "/"%char ∉ PyStr.chars "Envio de SMS clientes".
Proof.
  apply (excel_description_has_no_slash
           (sheet_with (Py.VStr "Nombre (ABC) Envio de  SMS / clientes  "))).
  vm_compute. reflexivity.
Defined.

End ExtractionExtras.

Module ListingExtras.
Import CheckJson Scenario.

Lemma starts_with_app_l sub : ∀ u v,
  PyStr.starts_with sub u = true → PyStr.starts_with sub (u ++ v) = true.
Proof.
  induction sub as [|c sub IH]; intros u v H; simpl in *; [by destruct (u ++ v)|].
  destruct u as [|d u]; [done|]. simpl.
  apply andb_prop in H as [-> H]. simpl. by apply IH.
Qed.

Lemma endswith_append x s ext :
  PyStr.endswith s ext = true → PyStr.endswith (x +:+ s) ext = true.
Proof.
  unfold PyStr.endswith. intros H.
  rewrite PyStrFacts.chars_append, reverse_app. by apply starts_with_app_l.
Qed.

(** A path made by [path_join] ends like the name it was made from. *)
Lemma endswith_path_join directory f ext :
  PyStr.endswith f ext = true → PyStr.endswith (path_join directory f) ext = true.
Proof.
  intros H. unfold path_join.
  destruct (PyStr.starts_with _ _); [done|].
  destruct (_ || _); [by apply endswith_append|].
  by apply endswith_append, endswith_append.
Qed.

(** X11.  When the directory can be listed, [list_excel_files_path]
    returns, without touching the state, the joined paths of exactly the
    listed names that end in ".xlsx" or ".xls", and every returned path
    ends in one of the two; when listing raises, the exception escapes. *)
Theorem list_excel_files_path_result (w : World) (directory : string) (st : State) :
  match listdir w directory with
  | Py.Ok names =>
      ∃ paths,
        list_excel_files_path w directory st = (Done paths, st) ∧
        (∀ p, p ∈ paths ↔
              ∃ f, f ∈ names ∧ keep_excel f = true ∧ p = path_join directory f) ∧
        (∀ p, p ∈ paths →
              PyStr.endswith p ".xlsx" = true ∨ PyStr.endswith p ".xls" = true)
  | Py.Raise e => list_excel_files_path w directory st = (Uncaught e, st)
  end.
Proof.
  unfold list_excel_files_path, bind, lift, ret.
  destruct (listdir w directory) as [names|e]; [|done].
  eexists. split; [reflexivity|].
  assert (Hin : ∀ p, p ∈ map (path_join directory)
                          (filter (fun f => keep_excel f = true) names)
                     ↔ ∃ f, f ∈ names ∧ keep_excel f = true ∧ p = path_join directory f).
  { intros p. rewrite list_elem_of_fmap. split.
    - intros (f & -> & Hf). apply list_elem_of_filter in Hf as [Hk Hf]. eauto.
    - intros (f & Hf & Hk & ->). exists f. split; [done|].
      by apply list_elem_of_filter. }
  split; [done|].
  intros p Hp. apply Hin in Hp as (f & _ & Hk & ->).
  unfold keep_excel in Hk. apply orb_prop in Hk as [Hk|Hk].
  - left. by apply endswith_path_join.
  - right. by apply endswith_path_join.
Qed.

(** X12.  Likewise [list_json_file_paths] returns the joined paths of
    exactly the listed names that end in ".json", each ending in ".json",
    and lets the exception of a failed listing escape. *)
Theorem list_json_file_paths_result (w : World) (directory : string) (st : State) :
  match listdir w directory with
  | Py.Ok names =>
      ∃ paths,
        list_json_file_paths w directory st = (Done paths, st) ∧
        (∀ p, p ∈ paths ↔
              ∃ f, f ∈ names ∧ PyStr.endswith f ".json" = true ∧
                   p = path_join directory f) ∧
        (∀ p, p ∈ paths → PyStr.endswith p ".json" = true)
  | Py.Raise e => list_json_file_paths w directory st = (Uncaught e, st)
  end.
Proof.
  unfold list_json_file_paths, bind, lift, ret.
  destruct (listdir w directory) as [names|e]; [|done].
  eexists. split; [reflexivity|].
  assert (Hin : ∀ p, p ∈ map (path_join directory)
                          (filter (fun f => PyStr.endswith f ".json" = true) names)
                     ↔ ∃ f, f ∈ names ∧ PyStr.endswith f ".json" = true ∧
                            p = path_join directory f).
  { intros p. rewrite list_elem_of_fmap. split.
    - intros (f & -> & Hf). apply list_elem_of_filter in Hf as [Hk Hf]. eauto.
    - intros (f & Hf & Hk & ->). exists f. split; [done|].
      by apply list_elem_of_filter. }
  split; [done|].
  intros p Hp. apply Hin in Hp as (f & _ & Hk & ->). by apply endswith_path_join.
Qed.

Lemma list_excel_files_path_result_witness :
  ∃ paths,
    list_excel_files_path two_pairs_world "/p/reports/briefing" initial_state
    = (Done paths, initial_state) ∧
    (∀ p, p ∈ paths ↔
          ∃ f, f ∈ ["b1.xlsx"; "notes.txt"; "b2.xls"]%string ∧ keep_excel f = true ∧
               p = path_join "/p/reports/briefing" f) ∧
    (∀ p, p ∈ paths →
          PyStr.endswith p ".xlsx" = true ∨ PyStr.endswith p ".xls" = true).
Proof.
  exact (list_excel_files_path_result two_pairs_world "/p/reports/briefing" initial_state).
Defined.

Lemma list_json_file_paths_result_witness :
  ∃ paths,
    list_json_file_paths two_pairs_world "/p/reports/jsons" initial_state
    = (Done paths, initial_state) ∧
    (∀ p, p ∈ paths ↔
          ∃ f, f ∈ ["j1.json"; "j2.json"]%string ∧ PyStr.endswith f ".json" = true ∧
               p = path_join "/p/reports/jsons" f) ∧
    (∀ p, p ∈ paths → PyStr.endswith p ".json" = true).
Proof.
  exact (list_json_file_paths_result two_pairs_world "/p/reports/jsons" initial_state).
Defined.

Lemma before_slash_app l1 l2 :
  "/"%char ∉ l1 → before_slash (l1 ++ l2) = l1 ++ before_slash l2.
Proof.
  induction l1 as [|c l1 IH]; intros Hno; simpl; [done|].
  destruct (Ascii.eqb c "/") eqn:Hc.
  - apply Ascii.eqb_eq in Hc. subst c. destruct Hno. by left.
  - f_equal. apply IH. intros Hin. apply Hno. by right.
Qed.

Lemma basename_append x f :
  "/"%char ∉ PyStr.chars f →
  before_slash (reverse (PyStr.chars x)) = [] →
  basename (x +:+ f) = f.
Proof.
  intros Hno Hx. unfold basename.
  rewrite PyStrFacts.chars_append, reverse_app, before_slash_app.
  - rewrite Hx, app_nil_r, reverse_involutive. apply PyStrFacts.of_chars_chars.
  - intros Hin. apply Hno. by apply elem_of_reverse.
Qed.

Lemma endswith_slash_before a :
  PyStr.endswith a "/" = true → before_slash (reverse (PyStr.chars a)) = [].
Proof.
  unfold PyStr.endswith. change (reverse (PyStr.chars "/")) with ["/"%char].
  destruct (reverse (PyStr.chars a)) as [|c l];
    cbn [PyStr.starts_with before_slash]; [done|].
  rewrite Ascii.eqb_sym. by destruct (Ascii.eqb c "/").
Qed.

Lemma string_append_assoc (a b c : string) : (a +:+ b) +:+ c = a +:+ b +:+ c.
Proof.
  induction a as [|x a IH]; [done|].
  change (String x ((a +:+ b) +:+ c) = String x (a +:+ b +:+ c)). by rewrite IH.
Qed.

(** X13.  The name shown in a report is the name that was listed: for a
    name without "/", the base name of its joined path is the name. *)
Theorem basename_path_join (directory f : string) :
  "/"%char ∉ PyStr.chars f → basename (path_join directory f) = f.
Proof.
  intros Hno. unfold path_join.
  destruct (PyStr.starts_with (PyStr.chars "/") (PyStr.chars f)) eqn:Hs.
  { apply PyStrFacts.starts_with_app in Hs as [post Hs].
    destruct Hno. rewrite Hs. by left. }
  destruct (String.eqb directory "") eqn:Hd; simpl.
  { apply String.eqb_eq in Hd. subst directory. by apply (basename_append ""). }
  destruct (PyStr.endswith directory "/") eqn:He.
  - apply basename_append; [done|]. by apply endswith_slash_before.
  - replace (directory +:+ "/" +:+ f) with ((directory +:+ "/") +:+ f).
    + apply basename_append; [done|].
      rewrite PyStrFacts.chars_append, reverse_app. reflexivity.
    + apply string_append_assoc.
Qed.

Lemma basename_path_join_witness :
  basename (path_join "/p/reports/jsons" "j1.json") = "j1.json"%string.
Proof.
  apply basename_path_join. vm_compute.
  intros H. repeat (apply elem_of_cons in H as [H|H]; [discriminate|]).
  by apply elem_of_nil in H.
Defined.

End ListingExtras.

Module RequesterExtras.
Import CheckJson Scenario.

(** Reading a sequence backwards from a normal end. *)
Lemma bind_done {A B} (m : M A) (k : A → M B) st b st2 :
  bind m k st = (Done b, st2) →
  ∃ a st1, m st = (Done a, st1) ∧ k a st1 = (Done b, st2).
Proof.
  unfold bind. destruct (m st) as [[a|code|e] st1]; [|done|done]. eauto.
Qed.

Lemma bind_uncaught {A B} (m : M A) (k : A → M B) st e st2 :
  bind m k st = (Uncaught e, st2) →
  m st = (Uncaught e, st2) ∨
  ∃ a st1, m st = (Done a, st1) ∧ k a st1 = (Uncaught e, st2).
Proof.
  unfold bind. destruct (m st) as [[a|code|e'] st1]; [|done|].
  - right. eauto.
  - intros [= -> ->]. by left.
Qed.

Lemma lift_done {A} (r : Py.Result A) st a st1 :
  lift r st = (Done a, st1) → r = Py.Ok a ∧ st1 = st.
Proof. unfold lift. destruct r; [|done]. by intros [= -> ->]. Qed.

Lemma lift_uncaught {A} (r : Py.Result A) st e st1 :
  lift r st = (Uncaught e, st1) → r = Py.Raise e ∧ st1 = st.
Proof. unfold lift. destruct r; [done|]. by intros [= -> ->]. Qed.

Section Requesters.
Variable w : World.

Lemma none_or_not (o : PyObj) : o = ONone ∨ o ≠ ONone.
Proof. destruct o; by (left + right). Qed.

(** A load with the global not [None] does nothing, whatever is outside. *)
Lemma load_example_json_present st :
  example_json_content st ≠ ONone → load_example_json w st = (Done tt, st).
Proof.
  intros Hv. unfold load_example_json, bind, get_example_json_content.
  by destruct (example_json_content st).
Qed.

(** A load with the global [None] reads the file, parses it and stores
    what the parser returned. *)
Lemma load_example_json_absent st :
  example_json_content st = ONone →
  load_example_json w st
  = bind (lift (read_text w (path_join (shots_path w) "example_json_1.json")))
      (fun file => bind (lift (json_loads w file)) set_example_json_content) st.
Proof.
  intros Hv. unfold load_example_json at 1. unfold bind at 1.
  unfold get_example_json_content. by rewrite Hv.
Qed.

Lemma state_eta st :
  {| stdout := stdout st; sent := sent st; lists := lists st;
     example_json_content := example_json_content st |} = st.
Proof. by destruct st. Qed.

(** What a load leaves alone, and when it fails. *)
Lemma load_example_json_done st st1 :
  load_example_json w st = (Done tt, st1) →
  stdout st1 = stdout st ∧ sent st1 = sent st ∧ lists st1 = lists st.
Proof.
  destruct (none_or_not (example_json_content st)) as [Hv|Hv].
  - rewrite (load_example_json_absent _ Hv).
    unfold bind, lift, set_example_json_content.
    destruct (read_text w _) as [file|e]; [|done].
    destruct (json_loads w file) as [v|e]; [|done].
    by intros [= <-].
  - rewrite (load_example_json_present _ Hv). by intros [= <-].
Qed.

Lemma load_example_json_uncaught st e st1 :
  load_example_json w st = (Uncaught e, st1) →
  st1 = st ∧ example_json_content st = ONone.
Proof.
  destruct (none_or_not (example_json_content st)) as [Hv|Hv].
  - rewrite (load_example_json_absent _ Hv).
    unfold bind, lift, set_example_json_content.
    destruct (read_text w _) as [file|e']; [|by intros [= -> ->]].
    destruct (json_loads w file) as [v|e']; [done|]. by intros [= -> ->].
  - by rewrite (load_example_json_present _ Hv).
Qed.

Lemma load_example_json_never_exits st code st1 :
  load_example_json w st ≠ (Exited code, st1).
Proof.
  destruct (none_or_not (example_json_content st)) as [Hv|Hv].
  - rewrite (load_example_json_absent _ Hv).
    unfold bind, lift, set_example_json_content.
    destruct (read_text w _) as [file|e']; [|done].
    by destruct (json_loads w file) as [v|e'].
  - by rewrite (load_example_json_present _ Hv).
Qed.

(** X14.  The example document is loaded at most once, unless the file
    holds JSON null.  While the global is not [None], [load_example_json]
    changes nothing, whatever the files outside are.  A load that returns
    leaves the output, the calls and the lists alone; if the global was
    [None] it has read the file example_json_1.json of the shots directory
    and the global now holds exactly what the parser returned for its
    text.  If that is not [None], the next load changes nothing, whatever
    the files are; if it is [None], as for a file holding null, the state
    is the one before the load, in which the next call loads again. *)
Theorem load_example_json_once (st : State) :
  (example_json_content st ≠ ONone →
     ∀ w', load_example_json w' st = (Done tt, st)) ∧
  (∀ st', load_example_json w st = (Done tt, st') →
     stdout st' = stdout st ∧ sent st' = sent st ∧ lists st' = lists st ∧
     (example_json_content st = ONone →
        ∃ file,
          read_text w (path_join (shots_path w) "example_json_1.json") = Py.Ok file ∧
          json_loads w file = Py.Ok (example_json_content st')) ∧
     (example_json_content st' ≠ ONone →
        ∀ w', load_example_json w' st' = (Done tt, st')) ∧
     (example_json_content st' = ONone →
        st' = st ∧
        ∀ w', load_example_json w' st'
              = bind (lift (read_text w' (path_join (shots_path w')
                                            "example_json_1.json")))
                  (fun file => bind (lift (json_loads w' file))
                                 set_example_json_content) st')).
Proof.
  assert (Hpresent : ∀ s, example_json_content s ≠ ONone →
            ∀ w', load_example_json w' s = (Done tt, s)).
  { intros s Hs w'. unfold load_example_json, bind, get_example_json_content.
    by destruct (example_json_content s). }
  assert (Habsent : ∀ s, example_json_content s = ONone →
            ∀ w', load_example_json w' s
                  = bind (lift (read_text w' (path_join (shots_path w')
                                                "example_json_1.json")))
                      (fun file => bind (lift (json_loads w' file))
                                     set_example_json_content) s).
  { intros s Hs w'. unfold load_example_json at 1. unfold bind at 1.
    unfold get_example_json_content. by rewrite Hs. }
  split; [apply Hpresent|].
  intros st' H.
  destruct (none_or_not (example_json_content st)) as [Hv|Hv].
  - rewrite (Habsent _ Hv) in H.
    unfold bind, lift, set_example_json_content in H.
    destruct (read_text w _) as [file|e] eqn:Hread; [|done].
    destruct (json_loads w file) as [v|e] eqn:Hparse; [|done].
    injection H as <-. cbn [stdout sent lists example_json_content].
    split; [done|]. split; [done|]. split; [done|].
    split; [intros _; by exists file|].
    split; [intros Hne; by apply Hpresent|].
    intros ->. rewrite <- Hv, state_eta. split; [done|]. by apply Habsent.
  - rewrite (Hpresent _ Hv) in H. injection H as <-.
    split; [done|]. split; [done|]. split; [done|].
    split; [done|]. split; [apply Hpresent|]. done.
Qed.

(** A call inside the [try] block that ends normally. *)
Lemma guarded_call_done request st t st' :
  try_except
    (bind (s3_converse w request) (fun response => lift (response_text response)))
    (fun e => bind (print [error_line e]) (fun _ => exit 1)) st
  = (Done t, st') →
  ∃ response,
    converse w (length (sent st)) request = Py.Ok response ∧
    response_text response = Py.Ok t ∧
    stdout st' = stdout st ∧ lists st' = lists st ∧
    example_json_content st' = example_json_content st ∧
    sent st' = sent st ++ [request].
Proof.
  unfold try_except, bind, s3_converse, lift, print, exit.
  destruct (converse w (length (sent st)) request) as [response|e] eqn:Hc; [|done].
  destruct (response_text response) as [t'|e] eqn:Ht; [|done].
  intros [= -> <-]. exists response. simpl. repeat split; done.
Qed.

Lemma guarded_call_never_uncaught request st e st' :
  try_except
    (bind (s3_converse w request) (fun response => lift (response_text response)))
    (fun e => bind (print [error_line e]) (fun _ => exit 1)) st
  ≠ (Uncaught e, st').
Proof.
  unfold try_except, bind, s3_converse, lift, print, exit.
  destruct (converse w (length (sent st)) request) as [response|e']; [|done].
  by destruct (response_text response) as [t'|e'].
Qed.

(** X15.  A conversion that returns made exactly one call, of a single
    user turn for the model [model_id] with at most 4096 tokens; what it
    returns is the text read from the answer to that call; it printed
    nothing and left every list as it was. *)
Theorem process_excel_content_returns (excel_content : string) (st st' : State)
    (clean_briefing : string) :
  process_excel_content w excel_content st = (Done clean_briefing, st') →
  stdout st' = stdout st ∧ lists st' = lists st ∧
  ∃ request response,
    sent st' = sent st ++ [request] ∧
    map role (messages request) = [USER] ∧
    modelId request = model_id ∧ maxTokens request = 4096 ∧
    converse w (length (sent st)) request = Py.Ok response ∧
    response_text response = Py.Ok clean_briefing.
Proof.
  unfold process_excel_content. intros H.
  apply bind_done in H as ([] & st1 & Hload & H).
  apply load_example_json_done in Hload as (Hout & Hsent & Hlists).
  apply bind_done in H as (content & st2 & Hget & H).
  injection Hget as <- <-.
  apply guarded_call_done in H as (response & Hconv & Htext & Hout' & Hlists' & _ & Hsent').
  split; [congruence|]. split; [congruence|].
  eexists _, response. rewrite Hsent', Hsent. split; [reflexivity|].
  simpl. by rewrite <- Hsent.
Qed.

End Requesters.

(** A first load in [two_pairs_world], then a load in the state it left;
    and a first load in [null_document_world], which leaves the global
    [None]. *)
Lemma load_example_json_once_witness :
  (∀ w', load_example_json w' (load_example_json two_pairs_world initial_state).2
         = (Done tt, (load_example_json two_pairs_world initial_state).2)) ∧
  (∃ file,
     read_text two_pairs_world
       (path_join (shots_path two_pairs_world) "example_json_1.json") = Py.Ok file ∧
     json_loads two_pairs_world file
     = Py.Ok (example_json_content (load_example_json two_pairs_world initial_state).2)) ∧
  (load_example_json null_document_world initial_state).2 = initial_state.
Proof.
  split; [|split].
  - apply (proj1 (load_example_json_once two_pairs_world
                    (load_example_json two_pairs_world initial_state).2)).
    vm_compute. discriminate.
  - apply (proj2 (load_example_json_once two_pairs_world initial_state)
             (load_example_json two_pairs_world initial_state).2);
      vm_compute; reflexivity.
  - apply (proj2 (load_example_json_once null_document_world initial_state)
             (load_example_json null_document_world initial_state).2);
      vm_compute; reflexivity.
Defined.


Lemma process_excel_content_returns_witness :
  stdout (process_excel_content two_pairs_world "sheet" initial_state).2
  = stdout initial_state ∧
  lists (process_excel_content two_pairs_world "sheet" initial_state).2
  = lists initial_state ∧
  ∃ request response,
    sent (process_excel_content two_pairs_world "sheet" initial_state).2
    = sent initial_state ++ [request] ∧
    map role (messages request) = [USER] ∧
    modelId request = model_id ∧ maxTokens request = 4096 ∧
    converse two_pairs_world (length (sent initial_state)) request = Py.Ok response ∧
    response_text response = Py.Ok "NO_DIFF"%string.
Proof.
  apply (process_excel_content_returns two_pairs_world "sheet").
  vm_compute. reflexivity.
Defined.

Section MoreRequesters.
Variable w : World.

(** X16.  The only exception that escapes a conversion is the one raised
    while the example document is loaded for the first time; then no call
    was made and the state is what it was. *)
Theorem process_excel_content_uncaught (excel_content : string) (st st' : State)
    (e : Py.Exception) :
  process_excel_content w excel_content st = (Uncaught e, st') →
  st' = st ∧ example_json_content st = ONone ∧
  load_example_json w st = (Uncaught e, st).
Proof.
  unfold process_excel_content. intros H.
  apply bind_uncaught in H as [H|([] & st1 & Hload & H)].
  - destruct (load_example_json_uncaught w _ _ _ H) as [-> Hnone]. done.
  - apply bind_uncaught in H as [H|(content & st2 & Hget & H)]; [done|].
    by apply guarded_call_never_uncaught in H.
Qed.

(** X17.  The text read from an answer never ends in whitespace. *)
Theorem response_text_has_no_trailing_whitespace (response : PyObj) (t rest : string)
    (c : ascii) :
  response_text response = Py.Ok t →
  t = rest +:+ String c EmptyString →
  PyStr.isspace c = false.
Proof.
  unfold response_text. intros H Ht.
  destruct (getitem_key response "output") as [o1|]; [simpl in H|done].
  destruct (getitem_key o1 "message") as [o2|]; [simpl in H|done].
  destruct (getitem_key o2 "content") as [o3|]; [simpl in H|done].
  destruct (getitem_0 o3) as [o4|]; [simpl in H|done].
  destruct (getitem_key o4 "text") as [o5|]; [simpl in H|done].
  destruct o5 as [s| | | | |]; try done. simpl in H. injection H as <-.
  unfold PyStr.rstrip in Ht. apply (f_equal PyStr.chars) in Ht.
  rewrite PyStrFacts.chars_of_chars, PyStrFacts.chars_append in Ht.
  by apply ExtractionExtras.rstrip_by_last in Ht.
Qed.

(** X18.  A comparison that returns read the structured record, filled
    the template, left the list it was given exactly one user turn longer,
    and made one call that sent the whole of that longer list; it printed
    nothing. *)
Theorem compare_json_excel_returns (clean_briefing json_path : string) (prompt : nat)
    (new_request : string) (st st' : State) (turns : list Message) (diff : string) :
  compare_json_excel w clean_briefing json_path prompt new_request st = (Done diff, st') →
  lists st !! prompt = Some turns →
  ∃ json_content request_text request response,
    read_text w json_path = Py.Ok json_content ∧
    PyStr.format new_request
      [("clean_briefing", clean_briefing); ("json", json_content)]%string
    = Py.Ok request_text ∧
    lists st' !! prompt
    = Some (turns ++ [ {| role := USER; content := [ {| text := request_text |} ] |} ]) ∧
    sent st' = sent st ++ [request] ∧
    messages request = turns ++ [ {| role := USER; content := [ {| text := request_text |} ] |} ] ∧
    converse w (length (sent st)) request = Py.Ok response ∧
    response_text response = Py.Ok diff ∧
    stdout st' = stdout st.
Proof.
  unfold compare_json_excel. intros H Hturns.
  apply bind_done in H as (json_content & st1 & Hread & H).
  apply lift_done in Hread as [Hread ->].
  apply bind_done in H as (request_text & st1 & Hfmt & H).
  apply lift_done in Hfmt as [Hfmt ->].
  apply bind_done in H as ([] & st1 & Hext & H).
  injection Hext as <-.
  set (st1 := {| stdout := stdout st; sent := sent st;
                 lists := alter (fun l => l ++ transform_string_to_prompt request_text USER)
                            prompt (lists st);
                 example_json_content := example_json_content st |}) in *.
  assert (Hnew : lists st1 !! prompt
                 = Some (turns ++ [ {| role := USER;
                                       content := [ {| text := request_text |} ] |} ])).
  { simpl. rewrite list_lookup_alter_eq, Hturns. reflexivity. }
  change (try_except
            (bind (s3_converse w
                     {| modelId := model_id;
                        messages := default [] (lists st1 !! prompt);
                        maxTokens := 4096;
                        temperature := 0x1.999999999999ap-4%float;
                        top_k := 250 |})
                  (fun response => lift (response_text response)))
            (fun e => bind (print [error_line e]) (fun _ => exit 1)) st1
          = (Done diff, st')) in H.
  apply guarded_call_done in H
    as (response & Hconv & Htext & Hout & Hlists & _ & Hsent).
  eexists json_content, request_text, _, response.
  rewrite Hlists, Hsent. rewrite Hnew in *. simpl in *. repeat split; done.
Qed.

(** X19.  The exceptions that escape a comparison are those of reading
    the structured record and of filling the template; then nothing was
    sent or printed and the list is untouched. *)
Theorem compare_json_excel_uncaught (clean_briefing json_path : string) (prompt : nat)
    (new_request : string) (st st' : State) (e : Py.Exception) :
  compare_json_excel w clean_briefing json_path prompt new_request st = (Uncaught e, st') →
  st' = st ∧
  (read_text w json_path = Py.Raise e ∨
   ∃ json_content,
     read_text w json_path = Py.Ok json_content ∧
     PyStr.format new_request
       [("clean_briefing", clean_briefing); ("json", json_content)]%string
     = Py.Raise e).
Proof.
  unfold compare_json_excel. intros H.
  apply bind_uncaught in H as [H|(json_content & st1 & Hread & H)].
  { apply lift_uncaught in H as [H ->]. split; [done|]. by left. }
  apply lift_done in Hread as [Hread ->].
  apply bind_uncaught in H as [H|(request_text & st1 & Hfmt & H)].
  { apply lift_uncaught in H as [H ->]. split; [done|]. right. eauto. }
  apply lift_done in Hfmt as [Hfmt ->].
  apply bind_uncaught in H as [H|([] & st1 & Hext & H)]; [done|].
  injection Hext as <-.
  set (st1 := {| stdout := stdout st; sent := sent st;
                 lists := alter (fun l => l ++ transform_string_to_prompt request_text USER)
                            prompt (lists st);
                 example_json_content := example_json_content st |}) in *.
  change (try_except
            (bind (s3_converse w
                     {| modelId := model_id;
                        messages := default [] (lists st1 !! prompt);
                        maxTokens := 4096;
                        temperature := 0x1.999999999999ap-4%float;
                        top_k := 250 |})
                  (fun response => lift (response_text response)))
            (fun e => bind (print [error_line e]) (fun _ => exit 1)) st1
          = (Uncaught e, st')) in H.
  by apply guarded_call_never_uncaught in H.
Qed.


(** What the loop needs from one conversion and from one comparison. *)
Lemma conversion_step excel_content st t st1 :
  process_excel_content w excel_content st = (Done t, st1) →
  lists st1 = lists st ∧ stdout st1 = stdout st ∧
  length (sent st1) = S (length (sent st)).
Proof.
  unfold process_excel_content. intros H.
  apply bind_done in H as ([] & st0 & Hload & H).
  apply (load_example_json_done w) in Hload as (Hout & Hsent & Hlists).
  apply bind_done in H as (content & st2 & Hget & H). injection Hget as <- <-.
  apply guarded_call_done in H as (response & _ & _ & Hout' & Hlists' & _ & Hsent').
  rewrite Hsent', length_app, Hsent. simpl. split; [congruence|]. split; [congruence|lia].
Qed.

Lemma comparison_step clean_briefing json_path prompt new_request st diff st1 turns :
  compare_json_excel w clean_briefing json_path prompt new_request st = (Done diff, st1) →
  lists st !! prompt = Some turns →
  ∃ turn, role turn = USER ∧ lists st1 !! prompt = Some (turns ++ [turn]) ∧
          stdout st1 = stdout st ∧ length (sent st1) = S (length (sent st)).
Proof.
  unfold compare_json_excel. intros H Hturns.
  apply bind_done in H as (json_content & st0 & Hread & H).
  apply lift_done in Hread as [_ ->].
  apply bind_done in H as (request_text & st0 & Hfmt & H).
  apply lift_done in Hfmt as [_ ->].
  apply bind_done in H as ([] & st0 & Hext & H). injection Hext as <-.
  set (st0 := {| stdout := stdout st; sent := sent st;
                 lists := alter (fun l => l ++ transform_string_to_prompt request_text USER)
                            prompt (lists st);
                 example_json_content := example_json_content st |}) in *.
  change (try_except
            (bind (s3_converse w
                     {| modelId := model_id;
                        messages := default [] (lists st0 !! prompt);
                        maxTokens := 4096;
                        temperature := 0x1.999999999999ap-4%float;
                        top_k := 250 |})
                  (fun response => lift (response_text response)))
            (fun e => bind (print [error_line e]) (fun _ => exit 1)) st0
          = (Done diff, st1)) in H.
  apply guarded_call_done in H as (response & _ & _ & Hout & Hlists & _ & Hsent).
  exists {| role := USER; content := [ {| text := request_text |} ] |}.
  split; [done|]. rewrite Hlists, Hout, Hsent, length_app. simpl.
  rewrite list_lookup_alter_eq, Hturns. simpl. split; [done|]. split; [done|lia].
Qed.

(** X20.  When the last loop runs to its end, the shared conversation
    has grown by one user turn per matched pair, two calls were made per
    pair (one conversion, one comparison) and one report was printed per
    pair. *)
Theorem compare_matches_returns (matches : list MatchedPair) (claude_prompt : nat) :
  ∀ (st st' : State) (turns : list Message),
  compare_matches w matches claude_prompt st = (Done tt, st') →
  lists st !! claude_prompt = Some turns →
  ∃ added,
    lists st' !! claude_prompt = Some (turns ++ added) ∧
    length added = length matches ∧
    Forall (fun turn => role turn = USER) added ∧
    length (sent st') = (length (sent st) + 2 * length matches)%nat ∧
    length (stdout st') = (length (stdout st) + length matches)%nat.
Proof.
  unfold compare_matches.
  induction matches as [|[[[json_file excel_file] json_desc] excel_desc] matches IH];
    intros st st' turns H Hturns.
  - injection H as <-. exists []. rewrite app_nil_r. simpl.
    repeat split; [done|constructor|lia|lia].
  - simpl in H. apply bind_done in H as ([] & st4 & Hbody & Hrest).
    apply bind_done in Hbody as (excel_df & st1 & Hread & Hbody).
    apply lift_done in Hread as [_ ->].
    apply bind_done in Hbody as (clean_briefing & st1 & Hconv & Hbody).
    apply conversion_step in Hconv as (Hlists1 & Hout1 & Hsent1).
    apply bind_done in Hbody as (discrepancies & st2 & Hcmp & Hprint).
    eapply comparison_step in Hcmp as (turn & Hrole & Hlists2 & Hout2 & Hsent2);
      [|by rewrite Hlists1].
    injection Hprint as <-.
    destruct (IH _ _ (turns ++ [turn]) Hrest) as (added & Hl & Hlen & Hall & Hs & Ho);
      [done|].
    exists (turn :: added).
    cbn [stdout sent lists example_json_content] in Hl, Hs, Ho.
    rewrite <- app_assoc in Hl.
    split; [exact Hl|]. split; [cbn [length]; lia|]. split; [by constructor|].
    rewrite length_app, Hout2, Hout1 in Ho. cbn [length] in *. split; lia.
Qed.

End MoreRequesters.

Lemma process_excel_content_uncaught_witness :
  initial_state = initial_state ∧ example_json_content initial_state = ONone ∧
  load_example_json unreadable_world initial_state
  = (Uncaught (Py.OSError "No such file or directory"), initial_state).
Proof.
  apply (process_excel_content_uncaught unreadable_world "sheet").
  vm_compute. reflexivity.
Defined.

Lemma response_text_has_no_trailing_whitespace_witness :
  PyStr.isspace "F" = false.
Proof.
  apply (response_text_has_no_trailing_whitespace (answer "NO_DIFF  ") "NO_DIFF" "NO_DIF");
    vm_compute; reflexivity.
Defined.

Lemma compare_json_excel_returns_witness :
  ∃ json_content request_text request response,
    read_text two_pairs_world "/p/reports/jsons/j1.json" = Py.Ok json_content ∧
    PyStr.format Prompts.new_request
      [("clean_briefing", "{}"); ("json", json_content)]%string
    = Py.Ok request_text ∧
    lists (compare_json_excel two_pairs_world "{}" "/p/reports/jsons/j1.json" 0
             Prompts.new_request
             {| stdout := []; sent := []; lists := [[]];
                example_json_content := ONone |}).2 !! 0%nat
    = Some ([] ++ [one_turn USER request_text]) ∧
    sent (compare_json_excel two_pairs_world "{}" "/p/reports/jsons/j1.json" 0
            Prompts.new_request
            {| stdout := []; sent := []; lists := [[]];
               example_json_content := ONone |}).2
    = [] ++ [request] ∧
    messages request = [] ++ [one_turn USER request_text] ∧
    converse two_pairs_world 0 request = Py.Ok response ∧
    response_text response = Py.Ok "NO_DIFF"%string ∧
    stdout (compare_json_excel two_pairs_world "{}" "/p/reports/jsons/j1.json" 0
              Prompts.new_request
              {| stdout := []; sent := []; lists := [[]];
                 example_json_content := ONone |}).2 = [].
Proof.
  apply (compare_json_excel_returns two_pairs_world "{}" "/p/reports/jsons/j1.json" 0
           Prompts.new_request
           {| stdout := []; sent := []; lists := [[]]; example_json_content := ONone |}).
  - vm_compute. reflexivity.
  - reflexivity.
Defined.

Lemma compare_json_excel_uncaught_witness :
  initial_state = initial_state ∧
  (read_text unreadable_world "j1.json"
   = Py.Raise (Py.OSError "No such file or directory") ∨
   ∃ json_content,
     read_text unreadable_world "j1.json" = Py.Ok json_content ∧
     PyStr.format Prompts.new_request
       [("clean_briefing", "{}"); ("json", json_content)]%string
     = Py.Raise (Py.OSError "No such file or directory")).
Proof.
  apply (compare_json_excel_uncaught unreadable_world "{}" "j1.json" 0
           Prompts.new_request initial_state).
  vm_compute. reflexivity.
Defined.

Lemma compare_matches_returns_witness :
  ∃ added,
    lists (compare_matches two_pairs_world
             [("/p/reports/jsons/j1.json", "/p/reports/briefing/b1.xlsx", "Alta", "Alta")]%string
             0 {| stdout := []; sent := []; lists := [[]];
                  example_json_content := ONone |}).2 !! 0%nat
    = Some ([] ++ added) ∧
    length added = 1%nat ∧
    Forall (fun turn => role turn = USER) added ∧
    length (sent (compare_matches two_pairs_world
             [("/p/reports/jsons/j1.json", "/p/reports/briefing/b1.xlsx", "Alta", "Alta")]%string
             0 {| stdout := []; sent := []; lists := [[]];
                  example_json_content := ONone |}).2) = (0 + 2 * 1)%nat ∧
    length (stdout (compare_matches two_pairs_world
             [("/p/reports/jsons/j1.json", "/p/reports/briefing/b1.xlsx", "Alta", "Alta")]%string
             0 {| stdout := []; sent := []; lists := [[]];
                  example_json_content := ONone |}).2) = (0 + 1)%nat.
Proof.
  apply (compare_matches_returns two_pairs_world
           [("/p/reports/jsons/j1.json", "/p/reports/briefing/b1.xlsx", "Alta", "Alta")]%string
           0 {| stdout := []; sent := []; lists := [[]]; example_json_content := ONone |}).
  - vm_compute. reflexivity.
  - reflexivity.
Defined.

End RequesterExtras.

Module PromptExtras.
Import CheckJson Scenario.

(** X21.  The conversation built from the examples begins with the
    rules, then gives the three worked examples in their order, each
    filled request followed by its expected response. *)
Theorem claude_prompt_contents (st : State)
    (json_1 json_2 json_3 brf_1 brf_2 brf_3 : string)
    (more_jsons more_briefings : list string) :
  ∃ t1 t2 t3 st',
    PyStr.format Prompts.first_example
      [("json_1", json_1); ("brf_1", brf_1)]%string = Py.Ok t1 ∧
    PyStr.format Prompts.second_example
      [("json_2", json_2); ("brf_2", brf_2)]%string = Py.Ok t2 ∧
    PyStr.format Prompts.third_example
      [("json_3", json_3); ("brf_3", brf_3)]%string = Py.Ok t3 ∧
    build_claude_prompt (json_1 :: json_2 :: json_3 :: more_jsons)
      (brf_1 :: brf_2 :: brf_3 :: more_briefings) st
    = (Done (length (lists st)), st') ∧
    lists st' !! length (lists st)
    = Some [ one_turn USER Prompts.rules;
             one_turn USER t1; one_turn ASSISTANT Prompts.expected_response_1;
             one_turn USER t2; one_turn ASSISTANT Prompts.expected_response_2;
             one_turn USER t3; one_turn ASSISTANT Prompts.expected_response_3 ].
Proof.
  destruct (PromptFacts.format_first_example json_1 brf_1) as [t1 H1].
  destruct (PromptFacts.format_second_example json_2 brf_2) as [t2 H2].
  destruct (PromptFacts.format_third_example json_3 brf_3) as [t3 H3].
  exists t1, t2, t3. eexists. split; [done|]. split; [done|]. split; [done|].
  unfold build_claude_prompt.
  cbv [bind new_list list_extend lift ret Py.list_index].
  cbn [lookup list_lookup stdout sent lists example_json_content].
  rewrite H1, H2, H3.
  repeat (cbn [stdout sent lists example_json_content];
          rewrite ?PromptFacts.alter_last).
  split; [reflexivity|].
  cbn [stdout sent lists example_json_content]. apply PromptFacts.lookup_last.
Qed.

(** X22.  With fewer than three example texts of structured records the
    builder stops with [IndexError]: nothing is printed and no call is
    made. *)
Theorem claude_prompt_too_few_examples (st : State)
    (example_jsons_list example_briefings_list : list string) :
  (length example_jsons_list < 3)%nat →
  (3 <= length example_briefings_list)%nat →
  ∃ st',
    build_claude_prompt example_jsons_list example_briefings_list st
    = (Uncaught (Py.IndexError "list index out of range"), st') ∧
    stdout st' = stdout st ∧ sent st' = sent st.
Proof.
  intros Hj Hb.
  destruct example_briefings_list as [|b1 [|b2 [|b3 briefs]]]; simpl in Hb; try lia.
  destruct (PromptFacts.format_first_example) with (json_1 := "") (brf_1 := b1) as [t0 _].
  destruct example_jsons_list as [|j1 [|j2 [|j3 jsons]]]; simpl in Hj; try lia.
  - eexists. unfold build_claude_prompt.
    cbv [bind new_list list_extend lift ret Py.list_index].
    cbn [lookup list_lookup stdout sent lists example_json_content].
    split; [reflexivity|]. done.
  - destruct (PromptFacts.format_first_example j1 b1) as [t1 H1].
    eexists. unfold build_claude_prompt.
    cbv [bind new_list list_extend lift ret Py.list_index].
    cbn [lookup list_lookup stdout sent lists example_json_content].
    rewrite H1. cbn [lookup list_lookup stdout sent lists example_json_content].
    split; [reflexivity|]. done.
  - destruct (PromptFacts.format_first_example j1 b1) as [t1 H1].
    destruct (PromptFacts.format_second_example j2 b2) as [t2 H2].
    eexists. unfold build_claude_prompt.
    cbv [bind new_list list_extend lift ret Py.list_index].
    cbn [lookup list_lookup stdout sent lists example_json_content].
    rewrite H1. cbn [lookup list_lookup stdout sent lists example_json_content].
    rewrite H2. cbn [lookup list_lookup stdout sent lists example_json_content].
    split; [reflexivity|]. done.
Qed.

Lemma claude_prompt_too_few_examples_witness :
  ∃ st',
    build_claude_prompt ["j1"; "j2"]%string ["b1"; "b2"; "b3"]%string initial_state
    = (Uncaught (Py.IndexError "list index out of range"), st') ∧
    stdout st' = stdout initial_state ∧ sent st' = sent initial_state.
Proof. apply claude_prompt_too_few_examples; simpl; lia. Defined.

Lemma of_chars_around (l1 l2 l3 : list ascii) (x y : string) :
  PyStr.of_chars (l1 ++ PyStr.chars x ++ l2 ++ PyStr.chars y ++ l3)
  = PyStr.of_chars l1 +:+ x +:+ PyStr.of_chars l2 +:+ y +:+ PyStr.of_chars l3.
Proof.
  rewrite !ExtractionExtras.of_chars_app. by rewrite !PyStrFacts.of_chars_chars.
Qed.

(** X23.  Filling the request template puts the converted briefing and
    the structured record into it as they are, the briefing first:
    the template is [head ++ "{clean_briefing}" ++ middle ++ "{json}" ++
    tail], and the filled text is [head ++ clean_briefing ++ middle ++
    json ++ tail] whatever the two texts contain, braces included. *)
Theorem new_request_is_filled_verbatim :
  ∃ head middle tail : string,
    Prompts.new_request
    = head +:+ "{clean_briefing}" +:+ middle +:+ "{json}" +:+ tail ∧
    ∀ clean_briefing json : string,
      PyStr.format Prompts.new_request
        [("clean_briefing", clean_briefing); ("json", json)]%string
      = Py.Ok (head +:+ clean_briefing +:+ middle +:+ json +:+ tail).
Proof.
  set (i := PyStr.find Prompts.new_request "{clean_briefing}").
  set (j := PyStr.find Prompts.new_request "{json}").
  exists (PyStr.slice Prompts.new_request 0 i),
         (PyStr.slice Prompts.new_request (i + 16) j),
         (PyStr.slice_from Prompts.new_request (j + 6)).
  split; [vm_compute; reflexivity|].
  intros clean_briefing json. unfold PyStr.format.
  assert (H : PyStr.format_chars (PyStr.chars Prompts.new_request) None
                [("clean_briefing", clean_briefing); ("json", json)]%string
              = Py.Ok (PyStr.chars (PyStr.slice Prompts.new_request 0 i)
                       ++ PyStr.chars clean_briefing
                       ++ PyStr.chars (PyStr.slice Prompts.new_request (i + 16) j)
                       ++ PyStr.chars json
                       ++ PyStr.chars (PyStr.slice_from Prompts.new_request (j + 6))))
    by (vm_compute; reflexivity).
  rewrite H. cbn [Py.bind]. f_equal.
  rewrite of_chars_around. by rewrite !PyStrFacts.of_chars_chars.
Qed.

End PromptExtras.

Module SimilarityExtras.
Import CheckJson.

(** X24.  The similarity of any two texts is computed: the search for
    matching blocks ends, and the score is [_calculate_ratio] of the
    number of matched characters and the sum of the two lengths. *)
Theorem similarity_always_returns (a b : string) :
  ∃ blocks,
    Difflib.get_matching_blocks (Difflib.new a b) = Some blocks ∧
    similarity a b
    = Difflib._calculate_ratio (Difflib.sum_sizes blocks) (PyStr.len a + PyStr.len b).
Proof.
  destruct (DifflibFacts.get_matching_blocks_returns (Difflib.new a b)) as [blocks H].
  exists blocks. split; [done|].
  unfold similarity, Difflib.ratio. rewrite H. simpl.
  by rewrite !PyStrFacts.length_chars.
Qed.

End SimilarityExtras.
